(** * News-Summarizer: the request handler of [app.py], embedded and verified

    The Flask view [index] is a straight line of library calls with early
    returns.  Python strings are modelled as lists of Unicode code points,
    the library calls as oracles gathered in a record, and the handler as a
    program in a small monad that threads the log of side effects and stops
    at the first [return]. *)

From Stdlib Require Import List NArith ZArith Bool Lia String Ascii SpecFloat.
Import ListNotations.

(** ** Python strings *)

Module PyStr.

(** A [str] is a sequence of code points. *)
Definition char := N.
Definition pystr := list char.

(** A literal of the source, written as a Rocq string (ASCII range). *)
Definition py (s : string) : pystr := map N_of_ascii (list_ascii_of_string s).

Definition str_eqb (a b : pystr) : bool :=
  if list_eq_dec N.eq_dec a b then true else false.

(** [len(s)] *)
Definition len (s : pystr) : nat := List.length s.

(** Truth value of a string: [bool(s)], false exactly for the empty one. *)
Definition truthy (s : pystr) : bool :=
  match s with [] => false | _ :: _ => true end.

(** [c.isspace()]: the code points [str.strip()] removes. *)
Definition isspace (c : char) : bool :=
  ((9 <=? c) && (c <=? 13) || (28 <=? c) && (c <=? 32)
   || (c =? 133) || (c =? 160) || (c =? 5760)
   || (8192 <=? c) && (c <=? 8202)
   || (c =? 8232) || (c =? 8233) || (c =? 8239) || (c =? 8287)
   || (c =? 12288))%N.

Fixpoint lstrip (s : pystr) : pystr :=
  match s with
  | [] => []
  | c :: s' => if isspace c then lstrip s' else s
  end.

Definition rstrip (s : pystr) : pystr := rev (lstrip (rev s)).

(** [s.strip()] *)
Definition strip (s : pystr) : pystr := rstrip (lstrip s).

(** [s.split(sep)] for a separator of one character: always at least one
    fragment, empty fragments kept. *)
Fixpoint split (sep : char) (s : pystr) : list pystr :=
  match s with
  | [] => [[]]
  | c :: s' =>
      if (c =? sep)%N then [] :: split sep s'
      else match split sep s' with
           | [] => [[c]]
           | f :: fs => (c :: f) :: fs
           end
  end.

(** [sep.join(parts)] *)
Fixpoint join (sep : pystr) (parts : list pystr) : pystr :=
  match parts with
  | [] => []
  | [p] => p
  | p :: ps => p ++ sep ++ join sep ps
  end.

(** [s.startswith(prefix)] *)
Fixpoint startswith (s prefix : pystr) : bool :=
  match prefix, s with
  | [], _ => true
  | _ :: _, [] => false
  | p :: ps, c :: cs => (c =? p)%N && startswith cs ps
  end.

(** [needle in hay] on strings: substring test. *)
Fixpoint contains (hay needle : pystr) : bool :=
  startswith hay needle ||
  match hay with
  | [] => false
  | _ :: hay' => contains hay' needle
  end.

End PyStr.
Import PyStr.

(** ** The summarizer (lines 122-126 of [index]) *)

Definition period : char := 46%N.

(** [[s.strip() for s in article_text.split('.') if s.strip()]] *)
Definition sentences (article_text : pystr) : list pystr :=
  map strip (filter (fun s => truthy (strip s)) (split period article_text)).

Definition max_summarized_sentences : nat := 5.

Definition summarize (article_text : pystr) : pystr :=
  let summary :=
    join (py ". ") (firstn max_summarized_sentences (sentences article_text)) in
  if negb (truthy summary)
  then firstn 800 article_text
         ++ (if 800 <? len article_text then py "..." else py "")
  else summary.

(** ** [get_website_name] (lines 43-48) *)

Module Urllib.

(** The part of [urllib.parse.urlparse] that yields [.netloc], after CPython's
    [urlsplit]: leading C0 controls and spaces are dropped, tab, CR and LF
    removed, a scheme [letter (letter | digit | + | - | .)* :] is cut off, and
    after a leading [//] the netloc runs up to the first [/], [?] or [#].
    [urlsplit] raises [ValueError] only for a netloc with a bracket (the
    IPv6 checks) or with a character outside ASCII (the NFKC check); for a
    netloc that is [plain], ASCII and free of brackets, this is the netloc
    it returns.  Elsewhere [netloc] is what [urlsplit] returns when it
    returns, and [urlparse] is taken to return. *)

Definition c0_control_or_space (c : char) : bool := (c <=? 32)%N.

Fixpoint lstrip_chars (drop : char -> bool) (s : pystr) : pystr :=
  match s with
  | [] => []
  | c :: s' => if drop c then lstrip_chars drop s' else s
  end.

Definition unsafe_url_byte (c : char) : bool :=
  ((c =? 9) || (c =? 13) || (c =? 10))%N.

Definition ascii_alpha (c : char) : bool :=
  ((65 <=? c) && (c <=? 90) || (97 <=? c) && (c <=? 122))%N.

Definition scheme_char (c : char) : bool :=
  (ascii_alpha c || (48 <=? c) && (c <=? 57)
   || (c =? 43) || (c =? 45) || (c =? 46))%N.

(** [s.find(c)], [None] standing for [-1]. *)
Fixpoint find (c : char) (s : pystr) : option nat :=
  match s with
  | [] => None
  | d :: s' => if (d =? c)%N then Some 0
               else option_map S (find c s')
  end.

Definition after_scheme (url : pystr) : pystr :=
  match find 58%N url with
  | Some i =>
      if (0 <? i) && ascii_alpha (hd 0%N url) && forallb scheme_char (firstn i url)
      then skipn (S i) url
      else url
  | None => url
  end.

Definition netloc_delim (c : char) : bool :=
  ((c =? 47) || (c =? 63) || (c =? 35))%N.

Fixpoint upto_delim (s : pystr) : pystr :=
  match s with
  | [] => []
  | c :: s' => if netloc_delim c then [] else c :: upto_delim s'
  end.

Definition netloc (url : pystr) : pystr :=
  let url := lstrip_chars c0_control_or_space url in
  let url := filter (fun c => negb (unsafe_url_byte c)) url in
  let url := after_scheme url in
  if str_eqb (firstn 2 url) (py "//") then upto_delim (skipn 2 url) else py "".

(** ASCII and neither "[" nor "]". *)
Definition plain_char (c : char) : bool :=
  ((c <? 128) && negb ((c =? 91) || (c =? 93)))%N.

Definition plain (s : pystr) : bool := forallb plain_char s.

(** A character a plain host can hold: none of "/", "?", "#", tab, CR, LF. *)
Definition host_char (c : char) : bool :=
  plain_char c && negb (netloc_delim c || unsafe_url_byte c).

(** [s] up to the first [c]. *)
Fixpoint upto_char (c : char) (s : pystr) : pystr :=
  match s with
  | [] => []
  | d :: s' => if (d =? c)%N then [] else d :: upto_char c s'
  end.

(** The host of a netloc without brackets: what follows the last "@", up to
    the first ":" (the [hostname] of [urlparse], letter case aside). *)
Definition host_of (netloc : pystr) : pystr :=
  upto_char 58%N (rev (upto_char 64%N (rev netloc))).

End Urllib.

Definition get_website_name (url : pystr) : pystr :=
  let domain := Urllib.netloc url in
  if startswith domain (py "www.") then skipn 4 domain else domain.

(** ** The libraries the handler calls *)

(** Exceptions, as far as the [except] clauses tell them apart. *)
Inductive RequestException :=
| ConnectionError | Timeout | HTTPError | OtherRequestException.

Inductive exn :=
| RequestsError (e : RequestException)
| PyException.

(** A [requests.Response]: its status and [headers.get]. *)
Record Response := {
  status_code : Z;
  headers_get : pystr -> option pystr
}.

(** [resp.headers.get(name, default)] *)
Definition header_or (resp : Response) (name default : pystr) : pystr :=
  match headers_get resp name with
  | Some v => v
  | None => default
  end.

(** [resp.raise_for_status()] raises [HTTPError] on 4xx and 5xx. *)
Definition raises_for_status (resp : Response) : bool :=
  ((400 <=? status_code resp) && (status_code resp <? 600))%Z.

(** [article.publish_date]: falsy, or an object whose
    [strftime('%B %d, %Y')] gives a string or raises. *)
Inductive date_attr :=
| NoDate
| DateValue (strftime : option pystr).

(** The attributes of a [newspaper.Article] that [index] reads.  For [title],
    [text] and [top_image], [None] is the Python [None] (or, for the
    [getattr] of line 128, an attribute that is not there).  For
    [is_downloaded], which line 88 reads directly, [None] is an object
    without that attribute: reading it raises [AttributeError]. *)
Record Article := {
  url : pystr;
  is_downloaded : option bool;
  title : option pystr;
  authors : list pystr;
  publish_date : date_attr;
  text : option pystr;
  top_image : option pystr
}.

(** [Article(url)] *)
Definition new_article (u : pystr) : Article :=
  {| url := u; is_downloaded := Some false; title := Some (py "");
     authors := []; publish_date := NoDate; text := Some (py "");
     top_image := Some (py "") |}.

(** A method call on the article mutates it and returns or raises. *)
Inductive outcome :=
| Returned (a : Article)
| Raised (a : Article).

(** Everything outside the process: the validator, the network, the
    extraction and sentiment libraries and the clock.  [requests.get] raises
    what [requests] documents, a [RequestException]; the article methods
    raise any exception; the constructor [Article(url)] is taken to
    return. *)
Record World := {
  validators_url : pystr -> bool;
  requests_get : pystr -> pystr -> Z -> RequestException + Response;
  download : Article -> outcome;
  parse : Article -> outcome;
  nlp : Article -> outcome;
  textblob_polarity : pystr -> option spec_float;
  now : Z
}.

(** ** Requests, replies and effects *)

Inductive http_method := GET | POST | HEAD.

Record request := {
  method : http_method;
  form_url : option pystr
}.

(** The keyword arguments of the full [render_template] call. *)
Record Page := {
  ctx_title : pystr;
  ctx_authors : pystr;
  ctx_publish_date : pystr;
  ctx_summary : pystr;
  ctx_top_image : option pystr;
  ctx_sentiment : pystr;
  ctx_now : Z
}.

(** What the view returns: [redirect(url_for(endpoint))], the template with
    [now] only (the input form), or the template with a result. *)
Inductive reply :=
| Redirect (endpoint : pystr)
| RenderForm (now : Z)
| RenderResult (p : Page).

Inductive event :=
| Flash (msg : pystr)
| HttpGet (url user_agent : pystr) (timeout : Z)
| ArticleDownload
| ArticleParse
| ArticleNlp
| TextBlobSentiment (text : pystr)
| LogWarning (fmt : pystr)
| LogError (fmt : pystr).

Definition is_network (e : event) : bool :=
  match e with
  | HttpGet _ _ _ | ArticleDownload => true
  | _ => false
  end.

Definition is_extraction (e : event) : bool :=
  match e with
  | ArticleDownload | ArticleParse | ArticleNlp => true
  | _ => false
  end.

Definition is_flash (e : event) : bool :=
  match e with Flash _ => true | _ => false end.

(** ** The monad of the view: effects, the article object, [return], [raise] *)

Record state := {
  effects : list event;
  article : option Article
}.

Inductive result (A : Type) :=
| Val (a : A)
| Ret (r : reply)
| Exc (e : exn).
Arguments Val {A} a.
Arguments Ret {A} r.
Arguments Exc {A} e.

Definition M (A : Type) := state -> result A * state.

Definition ret {A} (a : A) : M A := fun st => (Val a, st).

Definition bind {A B} (m : M A) (k : A -> M B) : M B :=
  fun st =>
    match m st with
    | (Val a, st') => k a st'
    | (Ret r, st') => (Ret r, st')
    | (Exc e, st') => (Exc e, st')
    end.

Notation "x <- m ;; k" := (bind m (fun x => k))
  (at level 61, m at next level, right associativity).
Notation "m ;; k" := (bind m (fun _ => k))
  (at level 61, right associativity).

(** Python's [return r]. *)
Definition return_ {A} (r : reply) : M A := fun st => (Ret r, st).

Definition raise {A} (e : exn) : M A := fun st => (Exc e, st).

Definition emit (e : event) : M unit :=
  fun st => (Val tt, {| effects := effects st ++ [e]; article := article st |}).

(** [try: m  except <catches> as e: h e] *)
Definition try_except {A} (m : M A) (catches : exn -> bool) (h : exn -> M A) : M A :=
  fun st =>
    match m st with
    | (Exc e, st') => if catches e then h e st' else (Exc e, st')
    | other => other
    end.

Definition catch_RequestException (e : exn) : bool :=
  match e with RequestsError _ => true | PyException => false end.

Definition catch_Exception (e : exn) : bool := true.

(** [if c: body] *)
Definition when (c : bool) (body : M unit) : M unit :=
  if c then body else ret tt.

(** [article = Article(url)] *)
Definition bind_article (a : Article) : M unit :=
  fun st => (Val tt, {| effects := effects st; article := Some a |}).

(** [article.attr]; the name is unbound before the assignment. *)
Definition attr {A} (f : Article -> A) : M A :=
  fun st =>
    match article st with
    | Some a => (Val (f a), st)
    | None => (Exc PyException, st)
    end.

(** [article.attr] for an attribute the object may lack: [AttributeError]
    when it is not there. *)
Definition attr_or_raise {A} (f : Article -> option A) : M A :=
  fun st =>
    match article st with
    | Some a =>
        match f a with
        | Some x => (Val x, st)
        | None => (Exc PyException, st)
        end
    | None => (Exc PyException, st)
    end.

(** [article.method()]: the object is updated whether the call returns or
    raises. *)
Definition call_method (method : Article -> outcome) (ev : event) : M unit :=
  fun st =>
    match article st with
    | None => (Exc PyException, st)
    | Some a =>
        let log := effects st ++ [ev] in
        match method a with
        | Returned a' => (Val tt, {| effects := log; article := Some a' |})
        | Raised a' => (Exc PyException, {| effects := log; article := Some a' |})
        end
    end.

(** ** [safe_requests_get] (lines 50-56) *)

Definition user_agent : pystr :=
  py "Mozilla/5.0 (X11; Linux x86_64) AppleWebKit/537.36 (KHTML, like Gecko) Chrome/142.0.0.0 Safari/537.36".

Definition safe_requests_get (w : World) (u : pystr) (timeout : Z) : M Response :=
  emit (HttpGet u user_agent timeout) ;;
  match requests_get w u user_agent timeout with
  | inl e => raise (RequestsError e)
  | inr resp => ret resp
  end.

(** ** [index] (lines 58-157) *)

Definition msg_invalid_url : pystr :=
  py "Please enter a valid URL (include http/https).".
Definition msg_not_html : pystr :=
  py "URL does not appear to be an HTML article.".
Definition msg_fetch_failed : pystr :=
  py "Failed to download the content of the URL. Try another link or check the URL.".
Definition msg_download_failed : pystr :=
  py "Failed to download article content (article.download()). Try another URL.".
Definition msg_not_retrieved : pystr :=
  py "Could not retrieve the article content. Try a different URL.".
Definition msg_parse_failed : pystr :=
  py "Article parsing failed. Try another URL.".
Definition msg_empty_text : pystr :=
  py "Article text is empty or could not be extracted. Try another link.".

(** [flash(msg); return redirect(url_for('index'))] *)
Definition reject {A} (msg : pystr) : M A :=
  emit (Flash msg) ;; return_ (Redirect (py "index")).

(** [x or default] on a string that may be [None]. *)
Definition py_or (x : option pystr) (default : pystr) : pystr :=
  match x with
  | Some s => if truthy s then s else default
  | None => default
  end.

Definition zero : spec_float := S754_zero false.

Definition happy : pystr := py "happy " ++ [128522%N].
Definition sad : pystr := py "sad " ++ [128543%N].
Definition neutral : pystr := py "neutral " ++ [128528%N].

(** Lines 138-143. *)
Definition sentiment_of (polarity : spec_float) : pystr :=
  if SFltb zero polarity then happy
  else if SFltb polarity zero then sad
  else neutral.

(** Lines 131-136: the classifier under its [try], [0.0] when it raises. *)
Definition polarity_of (w : World) (article_text : pystr) : M spec_float :=
  try_except
    (emit (TextBlobSentiment article_text) ;;
     match textblob_polarity w article_text with
     | Some p => ret p
     | None => raise PyException
     end)
    catch_Exception
    (fun _ => emit (LogWarning (py "TextBlob sentiment failed: %s")) ;; ret zero).

Definition index (w : World) (req : request) : M unit :=
  match method req with
  | POST =>
      let u := strip (match form_url req with Some s => s | None => py "" end) in
      when (negb (validators_url w u)) (reject msg_invalid_url) ;;
      try_except
        (resp <- safe_requests_get w u 10 ;;
         when (raises_for_status resp) (raise (RequestsError HTTPError)) ;;
         let content_type := header_or resp (py "Content-Type") (py "") in
         when (negb (contains content_type (py "text/html")))
              (reject msg_not_html))
        catch_RequestException
        (fun _ =>
           emit (LogWarning (py "requests failed for %s : %s")) ;;
           reject msg_fetch_failed) ;;
      bind_article (new_article u) ;;
      try_except
        (call_method (download w) ArticleDownload)
        catch_Exception
        (fun _ =>
           emit (LogError (py "article.download() failed: %s")) ;;
           reject msg_download_failed) ;;
      downloaded <- attr_or_raise is_downloaded ;;
      when (negb downloaded)
           (emit (LogWarning (py "article.is_downloaded is False for %s")) ;;
            reject msg_not_retrieved) ;;
      try_except
        (call_method (parse w) ArticleParse)
        catch_Exception
        (fun _ =>
           emit (LogError (py "article.parse() failed: %s")) ;;
           reject msg_parse_failed) ;;
      try_except
        (call_method (nlp w) ArticleNlp)
        catch_Exception
        (fun _ => emit (LogWarning (py "article.nlp() failed: %s"))) ;;
      article_title <- attr title ;;
      let title := py_or article_title (py "Untitled") in
      article_authors <- attr authors ;;
      let authors :=
        match article_authors with
        | [] => get_website_name u
        | _ :: _ => join (py ", ") article_authors
        end in
      publish_date <-
        try_except
          (d <- attr publish_date ;;
           match d with
           | NoDate => ret (py "N/A")
           | DateValue (Some formatted) => ret formatted
           | DateValue None => raise PyException
           end)
          catch_Exception
          (fun _ => ret (py "N/A")) ;;
      raw_text <- attr text ;;
      let article_text := strip (py_or raw_text (py "")) in
      when (negb (truthy article_text)) (reject msg_empty_text) ;;
      let summary := summarize article_text in
      image <- attr top_image ;;
      let top_image :=
        match image with
        | Some s => if truthy s then Some s else None
        | None => None
        end in
      polarity <- polarity_of w article_text ;;
      let sentiment := sentiment_of polarity in
      return_ (RenderResult
                 {| ctx_title := title; ctx_authors := authors;
                    ctx_publish_date := publish_date; ctx_summary := summary;
                    ctx_top_image := top_image; ctx_sentiment := sentiment;
                    ctx_now := now w |})
  | _ => return_ (RenderForm (now w))
  end.

(** What the server sends for a request: the view's reply, or an internal
    error when the view raises or returns nothing. *)
Inductive served :=
| Served (r : reply)
| ServerError.

Definition handle (w : World) (req : request) : served * list event :=
  match index w req {| effects := []; article := None |} with
  | (Ret r, st) => (Served r, effects st)
  | (_, st) => (ServerError, effects st)
  end.

(** ** The stages of a POST, as the specification names them *)

(** The string the handler works on: the form field, trimmed. *)
Definition submitted (req : request) : pystr :=
  strip (match form_url req with Some s => s | None => py "" end).

(** Reachability prober: the GET returns a response that does not raise for
    its status and whose Content-Type contains "text/html". *)
Definition probe_ok (w : World) (u : pystr) : bool :=
  match requests_get w u user_agent 10 with
  | inl _ => false
  | inr resp =>
      negb (raises_for_status resp)
      && contains (header_or resp (py "Content-Type") (py "")) (py "text/html")
  end.

(** Article extractor: download, downloaded flag, parse, then the enrichment
    pass whose failure is ignored.  [FlagRaised]: the flag could not be read. *)
Inductive extraction :=
| DownloadRaised
| FlagRaised
| NotDownloaded
| ParseRaised
| Extracted (a : Article).

Definition extract (w : World) (u : pystr) : extraction :=
  match download w (new_article u) with
  | Raised _ => DownloadRaised
  | Returned a1 =>
      match is_downloaded a1 with
      | Some true =>
          match parse w a1 with
          | Raised _ => ParseRaised
          | Returned a2 =>
              Extracted (match nlp w a2 with Returned a3 | Raised a3 => a3 end)
          end
      | Some false => NotDownloaded
      | None => FlagRaised
      end
  end.

(** The text the summarizer and the classifier receive. *)
Definition article_text_of (a : Article) : pystr :=
  strip (py_or (text a) (py "")).

Inductive stage :=
| Validate | Probe | Download | DownloadedFlag | Parse | NonEmptyText.

(** The first stage that fails, [None] when all six succeed. *)
Definition first_failure (w : World) (u : pystr) : option stage :=
  if negb (validators_url w u) then Some Validate
  else if negb (probe_ok w u) then Some Probe
  else match extract w u with
       | DownloadRaised => Some Download
       | FlagRaised | NotDownloaded => Some DownloadedFlag
       | ParseRaised => Some Parse
       | Extracted a =>
           if truthy (article_text_of a) then None else Some NonEmptyText
       end.

(** The user messages of each failure category. *)
Definition category_messages (s : stage) : list pystr :=
  match s with
  | Validate => [msg_invalid_url]
  | Probe => [msg_not_html; msg_fetch_failed]
  | Download => [msg_download_failed]
  | DownloadedFlag => [msg_not_retrieved]
  | Parse => [msg_parse_failed]
  | NonEmptyText => [msg_empty_text]
  end.

Definition flashes (log : list event) : list event := filter is_flash log.

(** The Article Result handed to the template when every stage succeeds. *)
Definition result_page (w : World) (u : pystr) (a : Article) : Page :=
  {| ctx_title := py_or (title a) (py "Untitled");
     ctx_authors :=
       match authors a with
       | [] => get_website_name u
       | _ :: _ => join (py ", ") (authors a)
       end;
     ctx_publish_date :=
       match publish_date a with
       | DateValue (Some formatted) => formatted
       | _ => py "N/A"
       end;
     ctx_summary := summarize (article_text_of a);
     ctx_top_image :=
       match top_image a with
       | Some s => if truthy s then Some s else None
       | None => None
       end;
     ctx_sentiment :=
       sentiment_of match textblob_polarity w (article_text_of a) with
                    | Some p => p
                    | None => zero
                    end;
     ctx_now := now w |}.

(** A world built from fixed answers, for running the handler on examples. *)
Definition scripted (valid : bool) (probe : RequestException + Response)
    (extracted : Article) (polarity : option spec_float) : World :=
  {| validators_url := fun _ => valid;
     requests_get := fun _ _ _ => probe;
     download := fun a =>
       Returned {| url := url a; is_downloaded := Some true; title := title a;
                   authors := authors a; publish_date := publish_date a;
                   text := text a; top_image := top_image a |};
     parse := fun a =>
       Returned {| url := url a; is_downloaded := is_downloaded a;
                   title := title extracted; authors := authors extracted;
                   publish_date := publish_date extracted;
                   text := text extracted; top_image := top_image extracted |};
     nlp := fun a => Returned a;
     textblob_polarity := fun _ => polarity;
     now := 0%Z |}.

Definition html_response : Response :=
  {| status_code := 200%Z;
     headers_get := fun name =>
       if str_eqb name (py "Content-Type")
       then Some (py "text/html; charset=utf-8") else None |}.

Definition post (u : string) : request :=
  {| method := POST; form_url := Some (py u) |}.

Definition pdf_response : Response :=
  {| status_code := 200%Z;
     headers_get := fun name =>
       if str_eqb name (py "Content-Type")
       then Some (py "application/pdf") else None |}.

Definition not_found_response : Response :=
  {| status_code := 404%Z; headers_get := fun _ => Some (py "text/html") |}.

(** An extracted article without authors, and one without text. *)
Definition anonymous_story : Article :=
  {| url := py "https://www.example.com/story"; is_downloaded := Some true;
     title := Some (py "Story"); authors := []; publish_date := NoDate;
     text := Some (py " Good news. More news. "); top_image := None |}.

Definition empty_story : Article :=
  {| url := py "https://www.example.com/story"; is_downloaded := Some true;
     title := Some (py "Story"); authors := [py "Ann"; py "Bob"];
     publish_date := DateValue (Some (py "January 02, 2024"));
     text := Some (py "  "); top_image := Some (py "https://www.example.com/a.png") |}.

(** The polarity 0.5. *)
Definition half : spec_float := S754_finite false 1 (-1).

(** ** [ensure_nltk_models] (lines 18-31) *)

Module Nltk.

(** The NLTK data as the function meets it: [data_find st r] tells whether
    [nltk.data.find(r)] returns (it raises [LookupError] otherwise), and
    [download pkg st] is the data after [nltk.download(pkg, ...)]. *)
Record Env (store : Type) := {
  data_find : store -> pystr -> bool;
  download : pystr -> store -> store
}.
Arguments data_find {store} _ _ _.
Arguments download {store} _ _ _.

(** Returns [missing], the data afterwards and the packages downloaded, in
    order. *)
Definition ensure_nltk_models {store} (env : Env store) (st : store)
  : bool * store * list pystr :=
  let missing := false in
  let '(missing, st, fetched) :=
    if data_find env st (py "tokenizers/punkt")
    then (missing, st, [])
    else (true, download env (py "punkt") st, [py "punkt"]) in
  let '(missing, st, fetched) :=
    if data_find env st (py "tokenizers/punkt_tab/english")
    then (missing, st, fetched)
    else (true, download env (py "punkt_tab") st, fetched ++ [py "punkt_tab"]) in
  (missing, st, fetched).

(** A data directory as the list of the resources it holds, with downloads
    that succeed. *)
Definition disk : Env (list pystr) :=
  {| data_find := fun st r => existsb (str_eqb r) st;
     download := fun pkg st =>
       if str_eqb pkg (py "punkt") then py "tokenizers/punkt" :: st
       else if str_eqb pkg (py "punkt_tab")
            then py "tokenizers/punkt_tab/english" :: st
            else st |}.

(** Downloads that install what they are asked for and remove nothing. *)
Definition reliable {store} (env : Env store) : Prop :=
  (forall st, data_find env (download env (py "punkt") st)
                (py "tokenizers/punkt") = true) /\
  (forall st, data_find env (download env (py "punkt_tab") st)
                (py "tokenizers/punkt_tab/english") = true) /\
  (forall st pkg r, data_find env st r = true ->
                    data_find env (download env pkg st) r = true).

End Nltk.

(** ** Views of the log and of the world used in the statements *)

(** The library calls of the pipeline, numbered in the order of the source. *)
Definition call_rank (e : event) : option nat :=
  match e with
  | HttpGet _ _ _ => Some 0
  | ArticleDownload => Some 1
  | ArticleParse => Some 2
  | ArticleNlp => Some 3
  | TextBlobSentiment _ => Some 4
  | Flash _ | LogWarning _ | LogError _ => None
  end.

Definition calls (log : list event) : list nat :=
  flat_map (fun e => match call_rank e with Some n => [n] | None => [] end) log.

(** How many library calls have been made when a stage fails. *)
Definition calls_before (failure : option stage) : nat :=
  match failure with
  | Some Validate => 0
  | Some Probe => 1
  | Some Download | Some DownloadedFlag => 2
  | Some Parse => 3
  | Some NonEmptyText => 4
  | None => 5
  end.

(** The article a method call leaves behind. *)
Definition after (o : outcome) : Article :=
  match o with Returned a | Raised a => a end.

(** The article without its [is_downloaded] attribute, and the world whose
    downloaded articles lack it. *)
Definition drop_flag (a : Article) : Article :=
  {| url := url a; is_downloaded := None; title := title a;
     authors := authors a; publish_date := publish_date a; text := text a;
     top_image := top_image a |}.

Definition without_flag (w : World) : World :=
  {| validators_url := validators_url w; requests_get := requests_get w;
     download := fun a =>
       match download w a with
       | Returned a' => Returned (drop_flag a')
       | Raised a' => Raised (drop_flag a')
       end;
     parse := parse w; nlp := nlp w;
     textblob_polarity := textblob_polarity w; now := now w |}.

(** The URL's domain in the words of the specification: the host of the URL,
    without user information and port, with a leading "www." removed. *)
Definition spec_domain (u : pystr) : pystr :=
  let host := Urllib.host_of (Urllib.netloc u) in
  if startswith host (py "www.") then skipn 4 host else host.

(** ASCII lower case of a letter. *)
Definition ascii_lower (c : char) : char :=
  if ((65 <=? c) && (c <=? 90))%N then (c + 32)%N else c.

(** What every HTTP(S) URL has: the scheme "http" or "https", in either
    letter case, followed by "://". *)
Definition has_http_scheme (s : pystr) : bool :=
  let l := map ascii_lower s in
  startswith l (py "http://") || startswith l (py "https://").

(** A validator with the verdicts of [validators.url] on the examples below:
    it accepts http, https and ftp URLs and nothing without such a scheme. *)
Definition scheme_validator (s : pystr) : bool :=
  startswith s (py "http://") || startswith s (py "https://")
  || startswith s (py "ftp://").

(** The world with another validator. *)
Definition with_validator (w : World) (v : pystr -> bool) : World :=
  {| validators_url := v; requests_get := requests_get w;
     download := download w; parse := parse w; nlp := nlp w;
     textblob_polarity := textblob_polarity w; now := now w |}.

(** A status in the 2xx range. *)
Definition status_is_success (resp : Response) : bool :=
  ((200 <=? status_code resp) && (status_code resp <? 300))%Z.

Definition not_modified_response : Response :=
  {| status_code := 304%Z; headers_get := fun _ => Some (py "text/html") |}.

(** The world with another [article.nlp]. *)
Definition with_nlp (w : World) (f : Article -> outcome) : World :=
  {| validators_url := validators_url w; requests_get := requests_get w;
     download := download w; parse := parse w; nlp := f;
     textblob_polarity := textblob_polarity w; now := now w |}.

(** The reply and the log of a POST with the monad unfolded: one branch per
    way through [index].  [handle_post_replay] proves it equal to [handle]. *)
Definition post_replay (w : World) (u : pystr) : served * list event :=
  let back := Served (Redirect (py "index")) in
  let get := HttpGet u user_agent 10 in
  if validators_url w u then
    match requests_get w u user_agent 10 with
    | inl _ =>
        (back, [get; LogWarning (py "requests failed for %s : %s");
                Flash msg_fetch_failed])
    | inr resp =>
        if raises_for_status resp then
          (back, [get; LogWarning (py "requests failed for %s : %s");
                  Flash msg_fetch_failed])
        else if contains (header_or resp (py "Content-Type") (py ""))
                         (py "text/html") then
          match download w (new_article u) with
          | Raised _ =>
              (back, [get; ArticleDownload;
                      LogError (py "article.download() failed: %s");
                      Flash msg_download_failed])
          | Returned a1 =>
              match is_downloaded a1 with
              | None => (ServerError, [get; ArticleDownload])
              | Some false =>
                  (back, [get; ArticleDownload;
                          LogWarning (py "article.is_downloaded is False for %s");
                          Flash msg_not_retrieved])
              | Some true =>
                match parse w a1 with
                | Raised _ =>
                    (back, [get; ArticleDownload; ArticleParse;
                            LogError (py "article.parse() failed: %s");
                            Flash msg_parse_failed])
                | Returned a2 =>
                    let a3 := after (nlp w a2) in
                    let so_far :=
                      [get; ArticleDownload; ArticleParse; ArticleNlp]
                      ++ match nlp w a2 with
                         | Returned _ => []
                         | Raised _ =>
                             [LogWarning (py "article.nlp() failed: %s")]
                         end in
                    if truthy (article_text_of a3) then
                      (Served (RenderResult (result_page w u a3)),
                       so_far
                       ++ TextBlobSentiment (article_text_of a3)
                       :: match textblob_polarity w (article_text_of a3) with
                          | Some _ => []
                          | None =>
                              [LogWarning (py "TextBlob sentiment failed: %s")]
                          end)
                    else (back, so_far ++ [Flash msg_empty_text])
                end
              end
          end
        else (back, [get; Flash msg_not_html])
    end
  else (back, [Flash msg_invalid_url]).

(** ** Symbolic execution of the handler

    [run] unfolds the monad and the view; [feed] rewrites with the answers of
    the world that are in the context and runs on. *)

Ltac run :=
  cbv beta iota zeta delta
    [handle index bind ret return_ raise emit try_except when reject
     bind_article attr attr_or_raise call_method safe_requests_get polarity_of
     catch_Exception catch_RequestException effects article
     negb fst snd app flashes filter is_flash].

Ltac feed :=
  repeat match goal with
         | H : ?x = _ |- context [?x] => rewrite H; run
         end.

(** ** Predicates on strings used in the statements *)

(** [s] has no occurrence of [c]. *)
Definition free_of (c : char) (s : pystr) : Prop := Forall (fun d => d <> c) s.

(** A fragment as [sentences] yields them: non-empty, trimmed, no period. *)
Definition clean (f : pystr) : Prop :=
  f <> [] /\ strip f = f /\ free_of period f.

(** A period or a whitespace character. *)
Definition dotspace (c : char) : Prop := c = period \/ isspace c = true.

(** ** Facts about strings *)

Section StringFacts.

Lemma truthy_true (s : pystr) : truthy s = true <-> s <> [].
Proof. destruct s; simpl; split; congruence. Qed.

Lemma truthy_false (s : pystr) : truthy s = false <-> s = [].
Proof. destruct s; simpl; split; congruence. Qed.

Lemma lstrip_nonspace (c : char) (s : pystr) :
  isspace c = false -> lstrip (c :: s) = c :: s.
Proof. intros H. simpl. now rewrite H. Qed.

Lemma lstrip_head (s : pystr) :
  lstrip s = [] \/ exists c t, lstrip s = c :: t /\ isspace c = false.
Proof.
  induction s as [|c s IH]; [now left|].
  simpl. destruct (isspace c) eqn:E; [exact IH|].
  right. now exists c, s.
Qed.

Lemma lstrip_idem (s : pystr) : lstrip (lstrip s) = lstrip s.
Proof.
  destruct (lstrip_head s) as [->|(c & t & -> & H)]; [reflexivity|].
  now apply lstrip_nonspace.
Qed.

Lemma lstrip_snoc (s : pystr) (c : char) :
  isspace c = false -> lstrip (s ++ [c]) = lstrip s ++ [c].
Proof.
  intros H. induction s as [|d s IH]; simpl.
  - now rewrite H.
  - destruct (isspace d); [exact IH|reflexivity].
Qed.

Lemma lstrip_nil_iff (s : pystr) :
  lstrip s = [] <-> Forall (fun c => isspace c = true) s.
Proof.
  induction s as [|c s IH]; simpl.
  - split; auto.
  - destruct (isspace c) eqn:E.
    + rewrite IH. split; intros H; [now constructor|now inversion H].
    + split; [discriminate|]. intros H. inversion H. congruence.
Qed.

Lemma lstrip_Forall (P : char -> Prop) (s : pystr) :
  Forall P s -> Forall P (lstrip s).
Proof.
  induction 1 as [|c s Hc Hs IH]; simpl; [constructor|].
  destruct (isspace c); [exact IH|now constructor].
Qed.

Lemma Forall_rev_iff (P : char -> Prop) (s : pystr) :
  Forall P (rev s) <-> Forall P s.
Proof.
  rewrite !Forall_forall. split; intros H x Hx; apply H.
  - now apply in_rev in Hx.
  - now apply in_rev.
Qed.

Lemma strip_Forall (P : char -> Prop) (s : pystr) :
  Forall P s -> Forall P (strip s).
Proof.
  intros H. unfold strip, rstrip.
  apply Forall_rev_iff, lstrip_Forall, Forall_rev_iff, lstrip_Forall, H.
Qed.

Lemma rstrip_cons_nonspace (c : char) (s : pystr) :
  isspace c = false -> rstrip (c :: s) = c :: rstrip s.
Proof.
  intros H. unfold rstrip. simpl rev at 2.
  rewrite (lstrip_snoc _ _ H), rev_app_distr. reflexivity.
Qed.

Lemma strip_head (s : pystr) :
  strip s = [] \/ exists c t, strip s = c :: t /\ isspace c = false.
Proof.
  unfold strip.
  destruct (lstrip_head s) as [->|(c & t & -> & H)]; [now left|].
  right. exists c, (rstrip t). split; [now apply rstrip_cons_nonspace|exact H].
Qed.

Lemma rstrip_idem (s : pystr) : rstrip (rstrip s) = rstrip s.
Proof. unfold rstrip. now rewrite rev_involutive, lstrip_idem. Qed.

Lemma strip_idem (s : pystr) : strip (strip s) = strip s.
Proof.
  unfold strip at 1.
  destruct (strip_head s) as [E|(c & t & E & H)].
  - now rewrite E.
  - rewrite E, (lstrip_nonspace _ _ H), <- E. unfold strip. apply rstrip_idem.
Qed.

Lemma strip_nil_iff (s : pystr) :
  strip s = [] <-> Forall (fun c => isspace c = true) s.
Proof.
  unfold strip, rstrip. split.
  - intros H. apply (f_equal (@rev char)) in H.
    rewrite rev_involutive in H. simpl in H.
    apply lstrip_nil_iff in H. apply (proj1 (Forall_rev_iff _ _)) in H.
    destruct (lstrip_head s) as [E|(c & t & E & Hc)]; [now apply lstrip_nil_iff|].
    rewrite E in H. inversion H. congruence.
  - intros H. apply lstrip_nil_iff in H. now rewrite H.
Qed.

Lemma strip_space_cons (s : pystr) : strip (32%N :: s) = strip s.
Proof. reflexivity. Qed.

End StringFacts.

(** ** Facts about [split], [join] and [sentences] *)

Section SplitJoin.

Variable sep : char.

Lemma split_cons_other (c : char) (s : pystr) :
  c <> sep ->
  split sep (c :: s) = (c :: hd [] (split sep s)) :: tl (split sep s).
Proof.
  intros H. simpl. apply N.eqb_neq in H. rewrite H.
  destruct s as [|d s]; simpl; [reflexivity|].
  destruct (d =? sep)%N; [reflexivity|].
  destruct (split sep s); reflexivity.
Qed.

Lemma split_not_nil (s : pystr) : split sep s <> [].
Proof.
  destruct s as [|c s]; simpl; [discriminate|].
  destruct (c =? sep)%N; [discriminate|].
  destruct (split sep s); discriminate.
Qed.

Lemma split_free (s : pystr) : Forall (free_of sep) (split sep s).
Proof.
  induction s as [|c s IH]; simpl.
  - repeat constructor.
  - destruct (c =? sep)%N eqn:E.
    + constructor; [constructor|exact IH].
    + apply N.eqb_neq in E.
      destruct (split sep s) as [|f fs].
      * repeat constructor. exact E.
      * inversion IH; subst. constructor; [now constructor|assumption].
Qed.

Lemma split_app_sep (f s : pystr) :
  free_of sep f -> split sep (f ++ sep :: s) = f :: split sep s.
Proof.
  induction 1 as [|c f Hc Hf IH].
  - simpl. now rewrite N.eqb_refl.
  - change ((c :: f) ++ sep :: s) with (c :: (f ++ sep :: s)).
    rewrite (split_cons_other _ _ Hc), IH. reflexivity.
Qed.

Lemma split_whole (f : pystr) : free_of sep f -> split sep f = [f].
Proof.
  induction 1 as [|c f Hc Hf IH]; [reflexivity|].
  rewrite (split_cons_other _ _ Hc), IH. reflexivity.
Qed.

End SplitJoin.

Section Sentences.

Lemma isspace_period : isspace period = false.
Proof. reflexivity. Qed.

Lemma join_cons2 (sp f g : pystr) (fs : list pystr) :
  join sp (f :: g :: fs) = f ++ sp ++ join sp (g :: fs).
Proof. reflexivity. Qed.

Lemma join_not_nil (sp : pystr) (fs : list pystr) :
  fs <> [] -> Forall (fun f => f <> []) fs -> join sp fs <> [].
Proof.
  destruct fs as [|f [|g fs]]; intros Hne H; [congruence| |].
  - now inversion H.
  - rewrite join_cons2. inversion H; subst.
    destruct f; [congruence|discriminate].
Qed.

Lemma split_join (f : pystr) (fs : list pystr) :
  Forall (free_of period) (f :: fs) ->
  split period (join (py ". ") (f :: fs)) = f :: map (cons 32%N) fs.
Proof.
  revert f. induction fs as [|g fs IH]; intros f H; inversion H; subst.
  - now apply split_whole.
  - rewrite join_cons2.
    change (py ". " ++ join (py ". ") (g :: fs))
      with (period :: 32%N :: join (py ". ") (g :: fs)).
    rewrite split_app_sep by assumption.
    rewrite split_cons_other by discriminate.
    rewrite IH by assumption. reflexivity.
Qed.

Lemma sentences_cons_clean (f : pystr) (rest : list pystr) :
  truthy (strip f) = true ->
  map strip (filter (fun s => truthy (strip s)) (f :: rest))
  = strip f :: map strip (filter (fun s => truthy (strip s)) rest).
Proof. intros H. simpl. now rewrite H. Qed.

Lemma sentences_spaced (fs : list pystr) :
  Forall clean fs ->
  map strip (filter (fun s => truthy (strip s)) (map (cons 32%N) fs)) = fs.
Proof.
  induction 1 as [|f fs (Hne & Hs & _) _ IH]; [reflexivity|].
  simpl map at 2.
  rewrite sentences_cons_clean; rewrite strip_space_cons, Hs.
  - now rewrite IH.
  - now apply truthy_true.
Qed.

Lemma sentences_join (fs : list pystr) :
  Forall clean fs -> sentences (join (py ". ") fs) = fs.
Proof.
  intros H. destruct fs as [|f fs]; [reflexivity|].
  unfold sentences. rewrite split_join.
  - inversion H as [|? ? (Hne & Hs & _) Hfs]; subst.
    rewrite sentences_cons_clean; rewrite Hs.
    + now rewrite sentences_spaced.
    + now apply truthy_true.
  - eapply Forall_impl; [|exact H]. now intros ? (_ & _ & ?).
Qed.

Lemma sentences_clean (t : pystr) : Forall clean (sentences t).
Proof.
  unfold sentences.
  pose proof (split_free period t) as H.
  induction H as [|f fs Hf _ IH]; [constructor|].
  simpl. destruct (truthy (strip f)) eqn:E; [|exact IH].
  simpl. constructor; [|exact IH].
  repeat split.
  - now apply truthy_true.
  - apply strip_idem.
  - now apply strip_Forall.
Qed.

Lemma sentences_nil_fragments (t : pystr) :
  sentences t = [] <->
  Forall (Forall (fun c => isspace c = true)) (split period t).
Proof.
  unfold sentences.
  induction (split period t) as [|f fs IH]; simpl.
  - split; auto.
  - destruct (truthy (strip f)) eqn:E.
    + split; [discriminate|]. intros H. inversion H; subst.
      apply truthy_true in E. now apply strip_nil_iff in H2.
    + rewrite IH. apply truthy_false, strip_nil_iff in E.
      split; intros H; [now constructor|now inversion H].
Qed.

Lemma fragments_dotspace (t : pystr) :
  Forall (Forall (fun c => isspace c = true)) (split period t) <->
  Forall dotspace t.
Proof.
  induction t as [|c t IH]; simpl.
  - split; intros _; repeat constructor.
  - destruct (c =? period)%N eqn:E.
    + apply N.eqb_eq in E. split; intros H; inversion H; subst.
      * constructor; [now left|now apply IH].
      * constructor; [constructor|now apply IH].
    + apply N.eqb_neq in E.
      pose proof (split_not_nil period t) as Hne.
      destruct (split period t) as [|f fs]; [congruence|].
      split; intros H; inversion H; subst.
      * inversion H2; subst. constructor; [now right|].
        apply IH. now constructor.
      * apply IH in H3. inversion H3; subst.
        destruct H2 as [|Hc]; [congruence|].
        constructor; [now constructor|assumption].
Qed.

Lemma sentences_nil_iff (t : pystr) :
  sentences t = [] <-> Forall dotspace t.
Proof. rewrite sentences_nil_fragments. apply fragments_dotspace. Qed.

End Sentences.

(** ** The two paths of the summarizer *)

Section Summarizer.

Lemma firstn_not_nil {A} (n : nat) (l : list A) :
  0 < n -> l <> [] -> firstn n l <> [].
Proof. destruct n, l; simpl; intros; try congruence; lia. Qed.

Lemma Forall_firstn {A} (P : A -> Prop) (n : nat) (l : list A) :
  Forall P l -> Forall P (firstn n l).
Proof.
  intros H. revert n. induction H as [|a l Ha _ IH]; intros [|n]; simpl;
    constructor; auto.
Qed.

Lemma kept_clean (t : pystr) :
  Forall clean (firstn max_summarized_sentences (sentences t)).
Proof. apply Forall_firstn, sentences_clean. Qed.

Lemma kept_join_nil (t : pystr) :
  join (py ". ") (firstn max_summarized_sentences (sentences t)) = [] <->
  sentences t = [].
Proof.
  split; intros H.
  - destruct (sentences t) as [|f fs] eqn:E; [reflexivity|].
    exfalso. revert H. apply join_not_nil.
    + apply firstn_not_nil; [unfold max_summarized_sentences; lia|discriminate].
    + rewrite <- E. eapply Forall_impl; [|apply kept_clean]. now intros ? (? & _).
  - now rewrite H.
Qed.

Lemma summarize_sentence_path (t : pystr) :
  sentences t <> [] ->
  summarize t = join (py ". ") (firstn max_summarized_sentences (sentences t)).
Proof.
  intros H. unfold summarize.
  destruct (truthy _) eqn:E; [reflexivity|].
  apply truthy_false, kept_join_nil in E. congruence.
Qed.

Lemma summarize_fallback (t : pystr) :
  sentences t = [] ->
  summarize t = firstn 800 t ++ (if 800 <? len t then py "..." else py "").
Proof. intros H. unfold summarize. now rewrite H. Qed.

Lemma summarize_join (fs : list pystr) :
  fs <> [] -> Forall clean fs -> List.length fs <= max_summarized_sentences ->
  summarize (join (py ". ") fs) = join (py ". ") fs.
Proof.
  intros Hne Hc Hlen.
  rewrite summarize_sentence_path; rewrite (sentences_join _ Hc); [|exact Hne].
  now rewrite firstn_all2.
Qed.

Lemma dotspace_fallback (t : pystr) :
  Forall dotspace t ->
  Forall dotspace (firstn 800 t ++ (if 800 <? len t then py "..." else py "")).
Proof.
  intros H. apply Forall_app. split.
  - now apply Forall_firstn.
  - destruct (800 <? len t); [|constructor].
    repeat constructor; now left.
Qed.

Lemma fallback_fixed (t : pystr) :
  let out := firstn 800 t ++ (if 800 <? len t then py "..." else py "") in
  firstn 800 out ++ (if 800 <? len out then py "..." else py "") = out.
Proof.
  intros out. subst out. unfold len.
  remember 800 as n eqn:En.
  destruct (n <? List.length t) eqn:E.
  - apply Nat.ltb_lt in E.
    assert (L : List.length (firstn n t) = n) by (rewrite length_firstn; lia).
    rewrite firstn_app, L, Nat.sub_diag, firstn_0, app_nil_r.
    rewrite firstn_firstn, Nat.min_id.
    rewrite length_app, L.
    replace (n <? n + List.length (py "...")) with true; [reflexivity|].
    symmetry. apply Nat.ltb_lt. change (List.length (py "...")) with 3. lia.
  - apply Nat.ltb_ge in E.
    change (py "") with (@nil char). rewrite !app_nil_r.
    rewrite !(@firstn_all2 _ n t E).
    now rewrite (proj2 (Nat.ltb_ge _ _) E), app_nil_r.
Qed.

End Summarizer.

(** ** Properties of the summarizer *)

Lemma summarize_no_period (t : pystr) :
  t <> [] -> strip t = t -> free_of period t -> summarize t = t.
Proof.
  intros Hne Hs Hf.
  assert (E : sentences t = [t]).
  { unfold sentences. rewrite (split_whole _ _ Hf).
    rewrite sentences_cons_clean; rewrite Hs; [reflexivity|now apply truthy_true]. }
  rewrite summarize_sentence_path; rewrite E; [reflexivity|discriminate].
Qed.

Lemma len_pos_not_nil (n : nat) (t : pystr) : n < len t -> t <> [].
Proof. destruct t; simpl; [lia|discriminate]. Qed.

(** C1, as the code has it: the 800-character cut is taken only when no
    fragment survives trimming, that is when the text is made of periods and
    whitespace; such a text longer than 800 characters is summarized as its
    first 800 characters followed by "...".  A trimmed text without any
    period is one fragment and is returned whole, whatever its length. *)
Theorem summarize_long_text (t : pystr) (Hlen : 800 < len t) :
  (Forall dotspace t -> summarize t = firstn 800 t ++ py "...") /\
  (free_of period t -> strip t = t -> summarize t = t).
Proof.
  split.
  - intros H. rewrite summarize_fallback by now apply sentences_nil_iff.
    now rewrite (proj2 (Nat.ltb_lt _ _) Hlen).
  - intros Hf Hs. apply summarize_no_period; try assumption.
    exact (len_pos_not_nil _ _ Hlen).
Qed.

Lemma summarize_long_text_witness :
  summarize (repeat period 801) = firstn 800 (repeat period 801) ++ py "...".
Proof.
  apply (summarize_long_text (repeat period 801)).
  - unfold len. rewrite repeat_length. lia.
  - apply Forall_forall. intros c Hc. left. exact (repeat_spec _ _ _ Hc).
Defined.

(** C1 as stated fails: 801 letters [a] contain no period and are longer than
    800 characters, yet the summary is the whole text, not its first 800
    characters followed by "...". *)
Lemma summarize_no_period_counterexample :
  let t := repeat 97%N 801 in
  free_of period t /\ 800 < len t /\
  summarize t = t /\
  summarize t <> firstn 800 t ++ py "...".
Proof.
  intros t.
  assert (Hf : free_of period t).
  { apply Forall_forall. intros c Hc.
    rewrite (repeat_spec _ _ _ Hc). discriminate. }
  assert (Hl : 800 < len t).
  { unfold len, t. rewrite repeat_length. lia. }
  assert (E : summarize t = t) by (vm_compute; reflexivity).
  repeat split; try assumption.
  rewrite E. intros H.
  apply (f_equal (fun l => Nat.eqb (List.length l) 801)) in H.
  vm_compute in H. discriminate.
Qed.

(** C2: on "A. B. C. D. E. F." the summary is "A. B. C. D. E", the sixth
    fragment "F" being dropped; in general the fragments kept are the first
    [max_summarized_sentences = 5] non-empty trimmed fragments of the text
    split on the period, at most five of them, and whenever there is one the
    summary is their join with ". ". *)
Theorem summarize_first_five :
  sentences (py "A. B. C. D. E. F.")
    = [py "A"; py "B"; py "C"; py "D"; py "E"; py "F"] /\
  summarize (py "A. B. C. D. E. F.") = py "A. B. C. D. E" /\
  forall t : pystr,
    let kept := firstn 5 (sentences t) in
    List.length kept <= 5 /\
    (forall f, In f kept -> clean f) /\
    (sentences t <> [] -> summarize t = join (py ". ") kept).
Proof.
  split; [vm_compute; reflexivity|].
  split; [vm_compute; reflexivity|].
  intros t kept. split; [|split].
  - apply firstn_le_length.
  - apply Forall_forall, kept_clean.
  - apply summarize_sentence_path.
Qed.

Lemma summarize_first_five_witness :
  summarize (py "One. Two. Three. Four. Five. Six. Seven")
  = join (py ". ") [py "One"; py "Two"; py "Three"; py "Four"; py "Five"].
Proof.
  apply (proj2 (proj2 (proj2 summarize_first_five)
                 (py "One. Two. Three. Four. Five. Six. Seven"))).
  vm_compute. discriminate.
Defined.

(** C8: the summary is a function of the text alone (equal texts give equal
    summaries), and summarizing a summary gives it back unchanged. *)
Theorem summarize_idempotent :
  (forall t1 t2 : pystr, t1 = t2 -> summarize t1 = summarize t2) /\
  (forall t : pystr, summarize (summarize t) = summarize t).
Proof.
  split; [now intros t1 t2 ->|].
  intros t. destruct (sentences t) as [|f fs] eqn:E.
  - rewrite (summarize_fallback t E).
    assert (D : Forall dotspace t) by now apply sentences_nil_iff.
    rewrite summarize_fallback
      by (now apply sentences_nil_iff, dotspace_fallback).
    apply fallback_fixed.
  - rewrite (summarize_sentence_path t) by (rewrite E; discriminate).
    apply summarize_join.
    + apply firstn_not_nil; [unfold max_summarized_sentences; lia|].
      rewrite E. discriminate.
    + apply kept_clean.
    + apply firstn_le_length.
Qed.

Lemma summarize_idempotent_witness :
  summarize (py "A. B. C. D. E. F.") = summarize (py "A. B. C. " ++ py "D. E. F.")
  /\ summarize (summarize (py "A. B. C. D. E. F.")) = summarize (py "A. B. C. D. E. F.").
Proof.
  split.
  - apply (proj1 summarize_idempotent). reflexivity.
  - apply (proj2 summarize_idempotent).
Defined.

(** C10: a text that is non-empty after trimming has a non-empty summary:
    with a surviving fragment the summary is the non-empty join of the kept
    fragments, and without one it is the non-empty prefix of at most 800
    characters of the text (followed by "..." when the text is longer). *)
Theorem summarize_not_empty (raw : pystr) :
  let article_text := strip raw in
  article_text <> [] ->
  summarize article_text <> [] /\
  (sentences article_text <> [] ->
   summarize article_text
   = join (py ". ") (firstn 5 (sentences article_text))) /\
  (sentences article_text = [] ->
   summarize article_text
   = firstn 800 article_text
       ++ (if 800 <? len article_text then py "..." else py "")).
Proof.
  intros t Hne. split; [|split].
  - destruct (sentences t) as [|f fs] eqn:E.
    + rewrite (summarize_fallback t E). intros H.
      apply app_eq_nil in H. destruct H as [H _]. revert H.
      apply firstn_not_nil; [lia|exact Hne].
    + rewrite summarize_sentence_path by (rewrite E; discriminate).
      intros H. apply kept_join_nil in H. congruence.
  - apply summarize_sentence_path.
  - apply summarize_fallback.
Qed.

Lemma summarize_not_empty_witness :
  summarize (strip (py "  ... ")) <> [].
Proof.
  apply (summarize_not_empty (py "  ... ")).
  vm_compute. discriminate.
Defined.

(** ** Running the handler *)

Section Handler.

Variable w : World.
Variable req : request.
Hypothesis is_post : method req = POST.

Let u := submitted req.

Lemma handle_invalid :
  validators_url w u = false ->
  handle w req = (Served (Redirect (py "index")), [Flash msg_invalid_url]).
Proof.
  subst u. unfold submitted. intros Hv. run. feed. reflexivity.
Qed.

Lemma handle_probe_error (e : RequestException) :
  validators_url w u = true ->
  requests_get w u user_agent 10 = inl e ->
  handle w req
  = (Served (Redirect (py "index")),
     [HttpGet u user_agent 10; LogWarning (py "requests failed for %s : %s");
      Flash msg_fetch_failed]).
Proof.
  subst u. unfold submitted. intros Hv Hg. run. feed. reflexivity.
Qed.

Lemma handle_probe_status (resp : Response) :
  validators_url w u = true ->
  requests_get w u user_agent 10 = inr resp ->
  raises_for_status resp = true ->
  handle w req
  = (Served (Redirect (py "index")),
     [HttpGet u user_agent 10; LogWarning (py "requests failed for %s : %s");
      Flash msg_fetch_failed]).
Proof.
  subst u. unfold submitted. intros Hv Hg Hs. run. feed. reflexivity.
Qed.

Lemma handle_not_html (resp : Response) :
  validators_url w u = true ->
  requests_get w u user_agent 10 = inr resp ->
  raises_for_status resp = false ->
  contains (header_or resp (py "Content-Type") (py "")) (py "text/html") = false ->
  handle w req
  = (Served (Redirect (py "index")),
     [HttpGet u user_agent 10; Flash msg_not_html]).
Proof.
  subst u. unfold submitted. intros Hv Hg Hs Hc. run. feed. reflexivity.
Qed.

(** Once the probe has passed, the reply is decided by the extractor. *)
Lemma handle_extract :
  validators_url w u = true ->
  probe_ok w u = true ->
  let out := handle w req in
  match extract w u with
  | DownloadRaised =>
      fst out = Served (Redirect (py "index"))
      /\ flashes (snd out) = [Flash msg_download_failed]
  | FlagRaised =>
      fst out = ServerError /\ flashes (snd out) = []
  | NotDownloaded =>
      fst out = Served (Redirect (py "index"))
      /\ flashes (snd out) = [Flash msg_not_retrieved]
  | ParseRaised =>
      fst out = Served (Redirect (py "index"))
      /\ flashes (snd out) = [Flash msg_parse_failed]
  | Extracted a =>
      if truthy (article_text_of a)
      then fst out = Served (RenderResult (result_page w u a))
           /\ flashes (snd out) = []
      else fst out = Served (Redirect (py "index"))
           /\ flashes (snd out) = [Flash msg_empty_text]
  end.
Proof.
  subst u. unfold submitted, probe_ok, extract, result_page, article_text_of.
  intros Hv Hp.
  destruct (requests_get w _ user_agent 10) as [e|resp] eqn:Hg; [discriminate|].
  apply andb_true_iff in Hp. destruct Hp as [Hs Hc].
  apply negb_true_iff in Hs.
  destruct (download w _) as [a1|a1] eqn:Hd.
  2:{ run. feed. split; reflexivity. }
  destruct (is_downloaded a1) as [[|]|] eqn:Hf.
  2,3:(run; feed; split; reflexivity).
  destruct (parse w a1) as [a2|a2] eqn:Hpa.
  2:{ run. feed. split; reflexivity. }
  destruct (nlp w a2) as [a3|a3] eqn:Hn;
    destruct (truthy (strip (py_or (text a3) (py "")))) eqn:Ht;
    destruct (publish_date a3) as [|[d|]] eqn:Hpd;
    destruct (textblob_polarity w (strip (py_or (text a3) (py "")))) eqn:Hs';
    destruct (authors a3) eqn:Ha;
    run; feed; split; reflexivity.
Qed.

Lemma handle_probe_failed :
  validators_url w u = true ->
  probe_ok w u = false ->
  fst (handle w req) = Served (Redirect (py "index"))
  /\ exists msg, In msg (category_messages Probe)
                 /\ flashes (snd (handle w req)) = [Flash msg].
Proof.
  intros Hv Hp. unfold probe_ok in Hp.
  destruct (requests_get w u user_agent 10) as [e|resp] eqn:Hg.
  - rewrite (handle_probe_error e Hv Hg). split; [reflexivity|].
    exists msg_fetch_failed. split; [right; now left|reflexivity].
  - destruct (raises_for_status resp) eqn:Hs.
    + rewrite (handle_probe_status resp Hv Hg Hs). split; [reflexivity|].
      exists msg_fetch_failed. split; [right; now left|reflexivity].
    + simpl in Hp. rewrite (handle_not_html resp Hv Hg Hs Hp).
      split; [reflexivity|].
      exists msg_not_html. split; [now left|reflexivity].
Qed.

End Handler.

(** ** Properties of the handler *)



(** C4, as the code has it: when validation, the probe and the extraction
    have succeeded, the text is not empty and the extracted author list is
    empty, a result page is rendered whose authors field is the netloc of
    the URL (the host together with any user information and port) with one
    leading "www." removed; for "https://www.example.com/story" that is
    "example.com".  Stated for URLs whose netloc is plain, where [urlparse]
    is sure to return. *)
Theorem authors_default_to_website_name :
  (forall w req a,
      method req = POST ->
      let u := submitted req in
      validators_url w u = true ->
      probe_ok w u = true ->
      extract w u = Extracted a ->
      article_text_of a <> [] ->
      authors a = [] ->
      Urllib.plain (Urllib.netloc u) = true ->
      exists page,
        fst (handle w req) = Served (RenderResult page)
        /\ ctx_authors page = get_website_name u
        /\ ctx_authors page
           = if startswith (Urllib.netloc u) (py "www.")
             then skipn 4 (Urllib.netloc u) else Urllib.netloc u) /\
  Urllib.netloc (py "https://www.example.com/story") = py "www.example.com" /\
  get_website_name (py "https://www.example.com/story") = py "example.com".
Proof.
  split; [|split; vm_compute; reflexivity].
  intros w req a Hm u Hv Hp He Ht Ha _.
  pose proof (handle_extract w req Hm Hv Hp) as H. cbv zeta in H.
  fold u in H. rewrite He in H.
  apply truthy_true in Ht. rewrite Ht in H. destruct H as [E _].
  exists (result_page w u a). split; [exact E|].
  unfold result_page. cbn [ctx_authors]. rewrite Ha. split; reflexivity.
Qed.

Lemma authors_default_to_website_name_witness :
  let w := scripted true (inr html_response) anonymous_story (Some half) in
  let req := post "https://www.example.com/story" in
  exists page,
    fst (handle w req) = Served (RenderResult page)
    /\ ctx_authors page = py "example.com".
Proof.
  intros w req.
  destruct (proj1 authors_default_to_website_name w req anonymous_story)
    as (page & E & A & _); try (vm_compute; reflexivity).
  - vm_compute. discriminate.
  - exists page. split; [exact E|]. rewrite A. vm_compute. reflexivity.
Defined.

(** C4 as stated fails: for "https://www.example.com:8080/story" and no
    extracted author the domain of the URL without "www." is "example.com",
    but the authors field of the rendered page is "example.com:8080": the
    code takes the netloc, which keeps the port. *)
Lemma authors_keep_port_counterexample :
  let w := scripted true (inr html_response) anonymous_story (Some half) in
  let req := post "https://www.example.com:8080/story" in
  authors anonymous_story = []
  /\ spec_domain (submitted req) = py "example.com"
  /\ exists page,
       fst (handle w req) = Served (RenderResult page)
       /\ ctx_authors page = py "example.com:8080"
       /\ ctx_authors page <> spec_domain (submitted req).
Proof.
  intros w req. split; [reflexivity|]. split; [vm_compute; reflexivity|].
  eexists. split; [vm_compute; reflexivity|].
  split; [vm_compute; reflexivity|]. vm_compute. discriminate.
Qed.

(** C5: when the probe has passed and the extractor has produced an article
    whose text is empty after trimming, the handler flashes the empty-content
    message and redirects to the form, whatever the other fields of the
    article are; no result page is rendered. *)
Theorem empty_text_rejected (w : World) (req : request) (a : Article) :
  method req = POST ->
  validators_url w (submitted req) = true ->
  probe_ok w (submitted req) = true ->
  extract w (submitted req) = Extracted a ->
  article_text_of a = [] ->
  fst (handle w req) = Served (Redirect (py "index"))
  /\ flashes (snd (handle w req)) = [Flash msg_empty_text]
  /\ forall page, fst (handle w req) <> Served (RenderResult page).
Proof.
  intros Hm Hv Hp He Ht.
  pose proof (handle_extract w req Hm Hv Hp) as H. cbv zeta in H.
  rewrite He, Ht in H. simpl in H. destruct H as [E F].
  repeat split; try assumption. intros page. rewrite E. discriminate.
Qed.

Lemma empty_text_rejected_witness :
  let w := scripted true (inr html_response) empty_story (Some half) in
  flashes (snd (handle w (post "https://www.example.com/story")))
  = [Flash msg_empty_text].
Proof.
  intros w.
  apply (empty_text_rejected w (post "https://www.example.com/story") empty_story);
    vm_compute; reflexivity.
Defined.

(** C6, as the code has it: a POST whose trimmed form value the validator rejects is answered by
    the invalid-URL message and a redirect to the form, and that flash is the
    only effect: no HTTP request, no download, no extraction. *)
Theorem invalid_url_rejected (w : World) (req : request) :
  method req = POST ->
  validators_url w (submitted req) = false ->
  handle w req = (Served (Redirect (py "index")), [Flash msg_invalid_url])
  /\ forall e, In e (snd (handle w req)) ->
               is_network e = false /\ is_extraction e = false.
Proof.
  intros Hm Hv. rewrite (handle_invalid w req Hm Hv). split; [reflexivity|].
  intros e [<-|[]]. split; reflexivity.
Qed.

Lemma invalid_url_rejected_witness :
  let w := scripted false (inr html_response) anonymous_story (Some half) in
  handle w (post "www.example.com/story")
  = (Served (Redirect (py "index")), [Flash msg_invalid_url]).
Proof.
  intros w.
  apply (invalid_url_rejected w (post "www.example.com/story"));
    vm_compute; reflexivity.
Defined.

(** C6 as stated fails: "ftp://example.com/file" is not an HTTP(S) URL, yet
    a validator that accepts it, as [validators.url] does, lets the handler
    go on to the GET; the reply is the fetch-failure message, after a call
    to [requests.get]. *)
Lemma ftp_url_counterexample :
  let w := with_validator
             (scripted true (inl OtherRequestException) anonymous_story
                (Some half))
             scheme_validator in
  let req := post "ftp://example.com/file" in
  has_http_scheme (submitted req) = false
  /\ validators_url w (submitted req) = true
  /\ handle w req
     = (Served (Redirect (py "index")),
        [HttpGet (submitted req) user_agent 10;
         LogWarning (py "requests failed for %s : %s");
         Flash msg_fetch_failed])
  /\ exists e, In e (snd (handle w req)) /\ is_network e = true.
Proof.
  intros w req. split; [vm_compute; reflexivity|].
  split; [vm_compute; reflexivity|]. split; [vm_compute; reflexivity|].
  exists (HttpGet (submitted req) user_agent 10).
  split; [vm_compute; now left|reflexivity].
Qed.

(** Where line 88 can read the flag, a POST ends in exactly one of two ways:
    with no failing stage the reply is the result page built from the
    extracted article and nothing is flashed; otherwise it is the redirect
    to the form with exactly one flashed message, that of the first failing
    stage. *)
Lemma post_outcome_with_flag (w : World) (req : request) :
  method req = POST ->
  let u := submitted req in
  let out := handle w req in
  extract w u <> FlagRaised ->
  match first_failure w u with
  | None =>
      exists a, extract w u = Extracted a
                /\ fst out = Served (RenderResult (result_page w u a))
                /\ flashes (snd out) = []
  | Some s =>
      fst out = Served (Redirect (py "index"))
      /\ exists msg, In msg (category_messages s)
                     /\ flashes (snd out) = [Flash msg]
  end.
Proof.
  intros Hm u out Hflag. unfold first_failure.
  destruct (validators_url w u) eqn:Hv; simpl.
  2:{ subst out. rewrite (handle_invalid w req Hm Hv). split; [reflexivity|].
      exists msg_invalid_url. split; [now left|reflexivity]. }
  destruct (probe_ok w u) eqn:Hp; simpl.
  2:{ exact (handle_probe_failed w req Hm Hv Hp). }
  pose proof (handle_extract w req Hm Hv Hp) as H. cbv zeta in H.
  fold u out in H.
  destruct (extract w u) as [| | | |a] eqn:He.
  - destruct H as [E F]. split; [exact E|].
    exists msg_download_failed. split; [now left|exact F].
  - congruence.
  - destruct H as [E F]. split; [exact E|].
    exists msg_not_retrieved. split; [now left|exact F].
  - destruct H as [E F]. split; [exact E|].
    exists msg_parse_failed. split; [now left|exact F].
  - destruct (truthy (article_text_of a)).
    + exists a. destruct H as [E F]. repeat split; assumption.
    + destruct H as [E F]. split; [exact E|].
      exists msg_empty_text. split; [now left|exact F].
Qed.

(** C9 fails on the code.  When validation, the probe and the download have
    succeeded and the article object has no [is_downloaded] attribute, the
    read on line 88, which no [try] encloses, raises: the view ends in an
    unhandled exception after the GET and the download, with no message
    flashed, no redirect to the form and no result page.  That is a third
    outcome beside the two the claim allows. *)
Theorem post_unreadable_flag (w : World) (req : request) (a1 : Article) :
  method req = POST ->
  let u := submitted req in
  validators_url w u = true ->
  probe_ok w u = true ->
  download w (new_article u) = Returned a1 ->
  is_downloaded a1 = None ->
  handle w req = (ServerError, [HttpGet u user_agent 10; ArticleDownload])
  /\ first_failure w u = Some DownloadedFlag
  /\ flashes (snd (handle w req)) = []
  /\ fst (handle w req) <> Served (Redirect (py "index"))
  /\ forall page, fst (handle w req) <> Served (RenderResult page).
Proof.
  intros Hm u Hv Hp Hd Hf.
  assert (E : handle w req
              = (ServerError, [HttpGet u user_agent 10; ArticleDownload])).
  { pose proof Hp as Hp'. subst u. unfold submitted, probe_ok in *.
    destruct (requests_get w _ user_agent 10) as [e|resp] eqn:Hg;
      [discriminate|].
    apply andb_true_iff in Hp'. destruct Hp' as [Hs Hc].
    apply negb_true_iff in Hs. run. feed. reflexivity. }
  rewrite E. repeat split; try discriminate.
  unfold first_failure, extract. now rewrite Hv, Hp, Hd, Hf.
Qed.

Lemma post_unreadable_flag_witness :
  let w := without_flag
             (scripted true (inr html_response) anonymous_story (Some half)) in
  let req := post "https://www.example.com/story" in
  handle w req
  = (ServerError, [HttpGet (submitted req) user_agent 10; ArticleDownload]).
Proof.
  intros w req.
  apply (post_unreadable_flag w req
           {| url := submitted req; is_downloaded := None;
              title := Some (py ""); authors := []; publish_date := NoDate;
              text := Some (py ""); top_image := Some (py "") |});
    reflexivity.
Defined.

(** A successful request run in full: the page that is rendered. *)
Example handle_story :
  handle (scripted true (inr html_response) anonymous_story (Some half))
         (post "https://www.example.com/story")
  = (Served (RenderResult
               {| ctx_title := py "Story"; ctx_authors := py "example.com";
                  ctx_publish_date := py "N/A";
                  ctx_summary := py "Good news. More news";
                  ctx_top_image := None; ctx_sentiment := happy;
                  ctx_now := 0%Z |}),
     [HttpGet (py "https://www.example.com/story") user_agent 10;
      ArticleDownload; ArticleParse; ArticleNlp;
      TextBlobSentiment (py "Good news. More news.")]).
Proof. vm_compute. reflexivity. Qed.

(** A GET only renders the form. *)
Example handle_get (w : World) :
  handle w {| method := GET; form_url := None |} = (Served (RenderForm (now w)), []).
Proof. reflexivity. Qed.

(** ** Further properties: [ensure_nltk_models] *)

(** X1: the function returns [True] exactly when it has downloaded something, it
    downloads at most "punkt" and then "punkt_tab", and "punkt" is downloaded
    exactly when its resource was not found at the start. *)
Theorem ensure_nltk_models_missing {store} (env : Nltk.Env store) (st : store) :
  let '(missing, _, fetched) := Nltk.ensure_nltk_models env st in
  (missing = true <-> fetched <> []) /\
  (fetched = [] \/ fetched = [py "punkt"] \/ fetched = [py "punkt_tab"]
   \/ fetched = [py "punkt"; py "punkt_tab"]) /\
  (In (py "punkt") fetched <->
   Nltk.data_find env st (py "tokenizers/punkt") = false).
Proof.
  unfold Nltk.ensure_nltk_models.
  destruct (Nltk.data_find env st (py "tokenizers/punkt")) eqn:H1;
    match goal with
    | |- context [Nltk.data_find env ?s (py "tokenizers/punkt_tab/english")] =>
        destruct (Nltk.data_find env s (py "tokenizers/punkt_tab/english"))
    end.
  - split; [split; congruence|]. split; [now left|].
    split; [intros []|discriminate].
  - split; [split; [discriminate|reflexivity]|].
    split; [right; right; now left|].
    split; [intros [H|[]]; discriminate H|discriminate].
  - split; [split; [discriminate|reflexivity]|].
    split; [right; now left|].
    split; [reflexivity|intros _; now left].
  - split; [split; [discriminate|reflexivity]|].
    split; [right; right; now right|].
    split; [reflexivity|intros _; now left].
Qed.

(** X2: when downloads install what they are asked for and remove nothing, both
    resources are found after the call, and a second call downloads nothing,
    changes nothing and returns [False]. *)
Theorem ensure_nltk_models_settles {store} (env : Nltk.Env store) (st : store) :
  Nltk.reliable env ->
  let '(_, st', _) := Nltk.ensure_nltk_models env st in
  Nltk.data_find env st' (py "tokenizers/punkt") = true /\
  Nltk.data_find env st' (py "tokenizers/punkt_tab/english") = true /\
  Nltk.ensure_nltk_models env st' = (false, st', []).
Proof.
  intros (Hp & Ht & Hk).
  assert (G : forall s,
    Nltk.data_find env s (py "tokenizers/punkt") = true ->
    Nltk.data_find env s (py "tokenizers/punkt_tab/english") = true ->
    Nltk.data_find env s (py "tokenizers/punkt") = true /\
    Nltk.data_find env s (py "tokenizers/punkt_tab/english") = true /\
    Nltk.ensure_nltk_models env s = (false, s, [])).
  { intros s H1 H2. repeat split; try assumption.
    unfold Nltk.ensure_nltk_models. now rewrite H1, H2. }
  unfold Nltk.ensure_nltk_models.
  destruct (Nltk.data_find env st (py "tokenizers/punkt")) eqn:H1.
  - destruct (Nltk.data_find env st (py "tokenizers/punkt_tab/english")) eqn:H2.
    + now apply G.
    + apply G; [now apply Hk|apply Ht].
  - destruct (Nltk.data_find env (Nltk.download env (py "punkt") st)
                (py "tokenizers/punkt_tab/english")) eqn:H2.
    + apply G; [apply Hp|exact H2].
    + apply G; [apply Hk, Hp|apply Ht].
Qed.

Lemma disk_reliable : Nltk.reliable Nltk.disk.
Proof.
  split; [|split].
  - intros st. reflexivity.
  - intros st. reflexivity.
  - intros st pkg r H. unfold Nltk.disk, Nltk.download, Nltk.data_find in *.
    destruct (str_eqb pkg (py "punkt")).
    + cbn [existsb]. rewrite H. apply orb_true_r.
    + destruct (str_eqb pkg (py "punkt_tab")); [|exact H].
      cbn [existsb]. rewrite H. apply orb_true_r.
Qed.

Lemma ensure_nltk_models_settles_witness :
  Nltk.ensure_nltk_models Nltk.disk
    [py "tokenizers/punkt_tab/english"; py "tokenizers/punkt"]
  = (false, [py "tokenizers/punkt_tab/english"; py "tokenizers/punkt"], []).
Proof.
  exact (proj2 (proj2 (ensure_nltk_models_settles Nltk.disk [] disk_reliable))).
Defined.

(** ** Further properties: [get_website_name] *)

Section WebsiteName.

Import Urllib.

Lemma lstrip_chars_Forall (P : char -> Prop) (drop : char -> bool) (s : pystr) :
  Forall P s -> Forall P (lstrip_chars drop s).
Proof.
  induction 1 as [|c s Hc Hs IH]; simpl; [constructor|].
  destruct (drop c); [exact IH|now constructor].
Qed.

Lemma filter_Forall (P : char -> Prop) (keep : char -> bool) (s : pystr) :
  Forall P s -> Forall P (filter keep s).
Proof.
  induction 1 as [|c s Hc Hs IH]; simpl; [constructor|].
  destruct (keep c); [now constructor|exact IH].
Qed.

Lemma skipn_Forall (P : char -> Prop) (n : nat) (s : pystr) :
  Forall P s -> Forall P (skipn n s).
Proof.
  intros H. revert n. induction H as [|c s Hc Hs IH]; intros [|n]; simpl;
    try constructor; auto.
Qed.

Lemma after_scheme_Forall (P : char -> Prop) (s : pystr) :
  Forall P s -> Forall P (after_scheme s).
Proof.
  intros H. unfold after_scheme.
  destruct (find 58%N s) as [i|]; [|exact H].
  destruct (_ && _); [|exact H]. now apply skipn_Forall.
Qed.

Lemma upto_delim_free (s : pystr) :
  Forall (fun c => netloc_delim c = false) (upto_delim s).
Proof.
  induction s as [|c s IH]; simpl; [constructor|].
  destruct (netloc_delim c) eqn:E; [constructor|now constructor].
Qed.

Lemma netloc_free (u : pystr) :
  Forall (fun c => netloc_delim c = false) (netloc u).
Proof.
  unfold netloc. destruct (str_eqb _ _); [apply upto_delim_free|constructor].
Qed.

Lemma startswith_app (s prefix : pystr) :
  startswith s prefix = true -> s = prefix ++ skipn (List.length prefix) s.
Proof.
  revert s. induction prefix as [|p ps IH]; intros s H; [reflexivity|].
  destruct s as [|c cs]; [discriminate|].
  simpl in H. apply andb_true_iff in H. destruct H as [E H].
  apply N.eqb_eq in E. subst c. simpl. f_equal. now apply IH.
Qed.

Lemma startswith_prefix (prefix s : pystr) :
  startswith (prefix ++ s) prefix = true.
Proof.
  induction prefix as [|p ps IH]; simpl.
  - now destruct s.
  - now rewrite N.eqb_refl.
Qed.

End WebsiteName.

(** X3: for a URL whose netloc is plain, a netloc that starts with "www."
    is the name returned with "www." put back in front (one prefix is
    removed, not more), any other netloc is returned as it is, and the name
    never contains "/", "?" or "#". *)
Theorem get_website_name_shape (u : pystr) :
  Urllib.plain (Urllib.netloc u) = true ->
  (startswith (Urllib.netloc u) (py "www.") = true ->
   Urllib.netloc u = py "www." ++ get_website_name u) /\
  (startswith (Urllib.netloc u) (py "www.") = false ->
   get_website_name u = Urllib.netloc u) /\
  Forall (fun c => Urllib.netloc_delim c = false) (get_website_name u).
Proof.
  intros _. unfold get_website_name.
  destruct (startswith (Urllib.netloc u) (py "www.")) eqn:E.
  - split; [|split].
    + intros _. exact (startswith_app _ _ E).
    + discriminate.
    + apply skipn_Forall, netloc_free.
  - split; [discriminate|]. split; [reflexivity|apply netloc_free].
Qed.

Lemma get_website_name_shape_witness :
  Urllib.netloc (py "https://www.www.example.com/a")
  = py "www." ++ get_website_name (py "https://www.www.example.com/a").
Proof.
  apply (get_website_name_shape (py "https://www.www.example.com/a"));
    reflexivity.
Defined.

(** X4: a URL without any "/" has no netloc, so its website name is empty: a
    scheme-less "www.example.com" yields "", not "example.com". *)
Theorem get_website_name_no_slash (u : pystr) :
  free_of 47%N u -> get_website_name u = [].
Proof.
  intros H. unfold get_website_name, Urllib.netloc.
  assert (F : free_of 47%N
                (Urllib.after_scheme
                   (filter (fun c => negb (Urllib.unsafe_url_byte c))
                      (Urllib.lstrip_chars Urllib.c0_control_or_space u)))).
  { apply after_scheme_Forall, filter_Forall, lstrip_chars_Forall, H. }
  destruct (str_eqb _ (py "//")) eqn:E; [|reflexivity].
  exfalso. unfold str_eqb in E.
  destruct (list_eq_dec _ _ _) as [E'|_]; [|discriminate].
  destruct (Urllib.after_scheme _) as [|a [|b r]]; try discriminate.
  simpl in E'. injection E' as -> _. inversion F. congruence.
Qed.

Lemma get_website_name_no_slash_witness :
  get_website_name (py "www.example.com") = [].
Proof.
  apply get_website_name_no_slash.
  repeat constructor; discriminate.
Defined.

Section UrlShape.

Import Urllib.

Ltac nbool :=
  repeat rewrite ?orb_true_iff, ?andb_true_iff, ?orb_false_iff,
    ?andb_false_iff, ?negb_true_iff, ?negb_false_iff,
    ?N.leb_le, ?N.leb_gt, ?N.eqb_eq, ?N.eqb_neq in *.

Lemma alpha_scheme_char (c : char) : ascii_alpha c = true -> scheme_char c = true.
Proof. intros H. unfold scheme_char. now rewrite H. Qed.

Lemma alpha_not_c0 (c : char) :
  ascii_alpha c = true -> c0_control_or_space c = false.
Proof. unfold ascii_alpha, c0_control_or_space. nbool. lia. Qed.

Lemma scheme_char_safe (c : char) :
  scheme_char c = true ->
  unsafe_url_byte c = false /\ c <> 58%N.
Proof. unfold scheme_char, ascii_alpha, unsafe_url_byte. nbool. lia. Qed.

Lemma delim_safe (c : char) :
  netloc_delim c = true -> unsafe_url_byte c = false.
Proof. unfold netloc_delim, unsafe_url_byte. nbool. lia. Qed.

Lemma filter_all (keep : char -> bool) (s : pystr) :
  forallb keep s = true -> filter keep s = s.
Proof.
  induction s as [|c s IH]; simpl; [reflexivity|].
  intros H. apply andb_true_iff in H. destruct H as [Hc Hs].
  rewrite Hc. f_equal. now apply IH.
Qed.

Lemma forallb_impl (p q : char -> bool) (s : pystr) :
  (forall c, p c = true -> q c = true) ->
  forallb p s = true -> forallb q s = true.
Proof.
  intros Hpq. induction s as [|c s IH]; simpl; [reflexivity|].
  intros H. apply andb_true_iff in H. destruct H as [Hc Hs].
  rewrite (Hpq _ Hc). now apply IH.
Qed.

Lemma find_colon (s t : pystr) :
  forallb scheme_char s = true ->
  find 58%N (s ++ 58%N :: t) = Some (List.length s).
Proof.
  induction s as [|c s IH]; simpl; [reflexivity|].
  intros H. apply andb_true_iff in H. destruct H as [Hc Hs].
  destruct (scheme_char_safe c Hc) as [_ Hne].
  apply N.eqb_neq in Hne. rewrite Hne, (IH Hs). reflexivity.
Qed.

Lemma after_scheme_cut (s t : pystr) :
  ascii_alpha (hd 0%N s) = true ->
  forallb scheme_char s = true ->
  after_scheme (s ++ 58%N :: t) = t.
Proof.
  intros Ha Hs. unfold after_scheme. rewrite (find_colon s t Hs).
  destruct s as [|c s]; [discriminate|].
  replace (0 <? List.length (c :: s)) with true by reflexivity.
  replace (hd 0%N ((c :: s) ++ 58%N :: t)) with c by reflexivity.
  simpl in Ha. rewrite Ha.
  rewrite firstn_app, Nat.sub_diag, firstn_0, app_nil_r, firstn_all, Hs.
  cbn [andb].
  replace ((c :: s) ++ 58%N :: t) with (((c :: s) ++ [58%N]) ++ t)
    by (rewrite <- app_assoc; reflexivity).
  replace (S (List.length (c :: s))) with (List.length ((c :: s) ++ [58%N]))
    by (rewrite length_app; simpl; lia).
  rewrite skipn_app, skipn_all, Nat.sub_diag. reflexivity.
Qed.

Lemma upto_delim_app (h rest : pystr) :
  forallb (fun c => negb (netloc_delim c)) h = true ->
  rest = [] \/ netloc_delim (hd 0%N rest) = true ->
  upto_delim (h ++ rest) = h.
Proof.
  intros Hh Hr. induction h as [|c h IH]; simpl.
  - destruct Hr as [->|Hr]; [reflexivity|].
    destruct rest as [|d r]; [reflexivity|]. simpl in *. now rewrite Hr.
  - simpl in Hh. apply andb_true_iff in Hh. destruct Hh as [Hc Hh].
    apply negb_true_iff in Hc. rewrite Hc. f_equal. now apply IH.
Qed.

Lemma netloc_of_url (scheme host rest : pystr) :
  ascii_alpha (hd 0%N scheme) = true ->
  forallb scheme_char scheme = true ->
  forallb (fun c => negb (netloc_delim c || unsafe_url_byte c)) host = true ->
  rest = [] \/ netloc_delim (hd 0%N rest) = true ->
  netloc (scheme ++ py "://" ++ host ++ rest) = host.
Proof.
  intros Ha Hs Hh Hr. unfold netloc.
  assert (L : lstrip_chars c0_control_or_space (scheme ++ py "://" ++ host ++ rest)
              = scheme ++ py "://" ++ host ++ rest).
  { destruct scheme as [|c s]; [discriminate|]. simpl in *.
    now rewrite (alpha_not_c0 c Ha). }
  rewrite L. clear L.
  rewrite !filter_app.
  rewrite (filter_all _ scheme)
    by (eapply forallb_impl; [|exact Hs]; intros c Hc;
        now rewrite (proj1 (scheme_char_safe c Hc))).
  rewrite (filter_all _ host)
    by (eapply forallb_impl; [|exact Hh]; intros c Hc; cbv beta in *;
        apply negb_true_iff, orb_false_iff in Hc; now rewrite (proj2 Hc)).
  change (filter (fun c => negb (unsafe_url_byte c)) (py "://")) with (py "://").
  change (scheme ++ py "://" ++ host ++ filter (fun c => negb (unsafe_url_byte c)) rest)
    with (scheme ++ 58%N :: (py "//" ++ host
            ++ filter (fun c => negb (unsafe_url_byte c)) rest)).
  rewrite (after_scheme_cut _ _ Ha Hs).
  change (str_eqb (firstn 2 (py "//" ++ host ++ _)) (py "//")) with true.
  cbv iota.
  change (skipn 2 (py "//" ++ ?x)) with x.
  apply upto_delim_app.
  - eapply forallb_impl; [|exact Hh]. intros c Hc. cbv beta in *.
    apply negb_true_iff, orb_false_iff in Hc. now rewrite (proj1 Hc).
  - destruct Hr as [->|Hr]; [now left|].
    destruct rest as [|d r]; [now left|]. right. simpl in *.
    now rewrite (delim_safe d Hr).
Qed.

End UrlShape.

(** X5: for a URL [scheme://host rest], with a scheme of scheme characters
    that starts with a letter, a host of ASCII characters other than "/",
    "?", "#", "[", "]", tab, CR and LF, and a rest that is empty or starts
    with "/", "?" or "#", the netloc is the host (port and user information
    included) and is plain, and a host written after "www." is returned
    without that prefix. *)
Theorem get_website_name_of_url (scheme host rest : pystr) :
  Urllib.ascii_alpha (hd 0%N scheme) = true ->
  forallb Urllib.scheme_char scheme = true ->
  forallb Urllib.host_char host = true ->
  rest = [] \/ Urllib.netloc_delim (hd 0%N rest) = true ->
  Urllib.netloc (scheme ++ py "://" ++ host ++ rest) = host /\
  Urllib.plain (Urllib.netloc (scheme ++ py "://" ++ host ++ rest)) = true /\
  get_website_name (scheme ++ py "://" ++ py "www." ++ host ++ rest) = host.
Proof.
  intros Ha Hs Hh Hr.
  assert (Hh' : forallb (fun c => negb (Urllib.netloc_delim c
                                        || Urllib.unsafe_url_byte c))
                        host = true).
  { eapply forallb_impl; [|exact Hh]. intros c Hc. cbv beta.
    unfold Urllib.host_char in Hc. apply andb_true_iff in Hc. tauto. }
  assert (Hp : Urllib.plain host = true).
  { unfold Urllib.plain. eapply forallb_impl; [|exact Hh]. intros c Hc.
    unfold Urllib.host_char in Hc. apply andb_true_iff in Hc. tauto. }
  assert (E : Urllib.netloc (scheme ++ py "://" ++ host ++ rest) = host)
    by now apply netloc_of_url.
  split; [exact E|]. split; [now rewrite E|].
  unfold get_website_name.
  replace (scheme ++ py "://" ++ py "www." ++ host ++ rest)
    with (scheme ++ py "://" ++ (py "www." ++ host) ++ rest)
    by (now rewrite <- (app_assoc (py "www."))).
  rewrite netloc_of_url; try assumption.
  rewrite startswith_prefix. reflexivity.
Qed.

Lemma get_website_name_of_url_witness :
  Urllib.netloc (py "https" ++ py "://" ++ py "news.example.org:8080" ++ py "/a?b=1")
  = py "news.example.org:8080"
  /\ get_website_name
       (py "https" ++ py "://" ++ py "www." ++ py "news.example.org:8080" ++ py "/a?b=1")
     = py "news.example.org:8080".
Proof.
  destruct (get_website_name_of_url (py "https") (py "news.example.org:8080")
              (py "/a?b=1")) as (E & _ & G); try reflexivity.
  - right. reflexivity.
  - split; [exact E|exact G].
Defined.

(** ** Further properties: the handler *)

Lemma handle_post_replay (w : World) (req : request) :
  method req = POST -> handle w req = post_replay w (submitted req).
Proof.
  intros Hm. unfold post_replay, submitted, result_page, article_text_of, after.
  destruct (validators_url w _) eqn:Hv; [|run; feed; reflexivity].
  destruct (requests_get w _ user_agent 10) as [e|resp] eqn:Hg;
    [run; feed; reflexivity|].
  destruct (raises_for_status resp) eqn:Hs; [run; feed; reflexivity|].
  destruct (contains _ (py "text/html")) eqn:Hc; [|run; feed; reflexivity].
  destruct (download w _) as [a1|a1] eqn:Hd; [|run; feed; reflexivity].
  destruct (is_downloaded a1) as [[|]|] eqn:Hf;
    [|run; feed; reflexivity|run; feed; reflexivity].
  destruct (parse w a1) as [a2|a2] eqn:Hpa; [|run; feed; reflexivity].
  destruct (nlp w a2) as [a3|a3] eqn:Hn;
    destruct (truthy (strip (py_or (text a3) (py "")))) eqn:Ht;
    destruct (publish_date a3) as [|[d|]] eqn:Hpd;
    destruct (textblob_polarity w (strip (py_or (text a3) (py "")))) eqn:Hs';
    destruct (authors a3) eqn:Ha;
    run; feed; reflexivity.
Qed.

Ltac replay_cases :=
  repeat match goal with
         | |- context [if validators_url ?w ?u then _ else _] =>
             destruct (validators_url w u) eqn:?
         | |- context [match requests_get ?w ?u ?a ?t with _ => _ end] =>
             destruct (requests_get w u a t) eqn:?
         | |- context [if raises_for_status ?r then _ else _] =>
             destruct (raises_for_status r) eqn:?
         | |- context [if contains ?a ?b then _ else _] =>
             destruct (contains a b) eqn:?
         | |- context [match download ?w ?a with _ => _ end] =>
             destruct (download w a) eqn:?
         | |- context [match is_downloaded ?a with _ => _ end] =>
             destruct (is_downloaded a) as [[|]|] eqn:?
         | |- context [match parse ?w ?a with _ => _ end] =>
             destruct (parse w a) eqn:?
         | |- context [match nlp ?w ?a with _ => _ end] =>
             destruct (nlp w a) eqn:?
         | |- context [if truthy (article_text_of ?a) then _ else _] =>
             destruct (truthy (article_text_of a)) eqn:?
         | |- context [match textblob_polarity ?w ?t with _ => _ end] =>
             destruct (textblob_polarity w t) eqn:?
         end.

(** X6: a POST makes the library calls of the pipeline (GET, download, parse,
    nlp, sentiment) in that order and each at most once, stopping at the
    stage that fails: none when the URL is invalid, all five exactly when the
    page is rendered.  The only GET is for the trimmed form value, with the
    fixed user agent and the timeout 10. *)
Theorem calls_in_order (w : World) (req : request) :
  method req = POST ->
  let u := submitted req in
  let log := snd (handle w req) in
  calls log = seq 0 (calls_before (first_failure w u)) /\
  forall x agent timeout,
    In (HttpGet x agent timeout) log ->
    x = u /\ agent = user_agent /\ timeout = 10%Z.
Proof.
  intros Hm u log. subst log. rewrite (handle_post_replay w req Hm). fold u.
  unfold post_replay, first_failure, probe_ok, extract, after.
  replay_cases; cbn [negb andb snd]; split; try reflexivity;
    intros x agent timeout H; cbn [In app] in H;
    repeat (destruct H as [H|H]; [try discriminate H|]);
    try contradiction;
    injection H as <- <- <-; repeat split.
Qed.

Lemma calls_in_order_witness :
  calls (snd (handle (scripted true (inr html_response) empty_story (Some half))
                     (post " https://www.example.com/story ")))
  = [0; 1; 2; 3].
Proof.
  apply (proj1 (calls_in_order
                  (scripted true (inr html_response) empty_story (Some half))
                  (post " https://www.example.com/story ") eq_refl)).
Defined.

(** X7: a failure of [article.nlp()] does not change the reply: two worlds that
    differ only in whether [nlp] returns or raises, leaving the same article
    behind, are answered alike. *)
Theorem nlp_failure_is_not_fatal (w : World) (f : Article -> outcome)
    (req : request) :
  (forall a, after (f a) = after (nlp w a)) ->
  fst (handle (with_nlp w f) req) = fst (handle w req).
Proof.
  intros Hf. destruct (method req) eqn:Hm.
  - unfold handle, index. rewrite Hm. reflexivity.
  - rewrite !handle_post_replay by exact Hm.
    unfold post_replay.
    cbn [with_nlp validators_url requests_get download parse nlp
         textblob_polarity now].
    destruct (validators_url w _); [|reflexivity].
    destruct (requests_get w _ _ _) as [e|resp]; [reflexivity|].
    destruct (raises_for_status resp); [reflexivity|].
    destruct (contains _ _); [|reflexivity].
    destruct (download w _) as [a1|a1]; [|reflexivity].
    destruct (is_downloaded a1) as [[|]|]; [|reflexivity|reflexivity].
    destruct (parse w a1) as [a2|a2]; [|reflexivity].
    cbv zeta. rewrite (Hf a2).
    destruct (truthy _); reflexivity.
  - unfold handle, index. rewrite Hm. reflexivity.
Qed.

Lemma nlp_failure_is_not_fatal_witness :
  let w := scripted true (inr html_response) anonymous_story (Some half) in
  let req := post "https://www.example.com/story" in
  fst (handle (with_nlp w Raised) req) = fst (handle w req).
Proof.
  intros w req. apply (nlp_failure_is_not_fatal w Raised req).
  intros a. reflexivity.
Defined.

Lemma summarize_nonempty (t : pystr) : t <> [] -> summarize t <> [].
Proof.
  intros Hne. destruct (sentences t) as [|f fs] eqn:E.
  - rewrite (summarize_fallback t E). intros H.
    apply app_eq_nil in H. destruct H as [H _]. revert H.
    apply firstn_not_nil; [lia|exact Hne].
  - rewrite summarize_sentence_path by (rewrite E; discriminate).
    intros H. apply kept_join_nil in H. congruence.
Qed.

Lemma rendered_inv (w : World) (req : request) (page : Page) :
  method req = POST ->
  fst (handle w req) = Served (RenderResult page) ->
  exists a, extract w (submitted req) = Extracted a
            /\ truthy (article_text_of a) = true
            /\ page = result_page w (submitted req) a.
Proof.
  intros Hm. rewrite (handle_post_replay w req Hm).
  unfold post_replay, extract, after.
  replay_cases; cbn [fst]; intros H; try discriminate H;
    injection H as <-; eexists; repeat split; assumption.
Qed.

(** X8: every result page has a non-empty title, a non-empty summary, one of the
    three sentiment labels and no empty image URL, and it is only rendered
    for a POST. *)
Theorem rendered_page_is_filled (w : World) (req : request) (page : Page) :
  fst (handle w req) = Served (RenderResult page) ->
  method req = POST /\
  ctx_title page <> [] /\
  ctx_summary page <> [] /\
  (ctx_sentiment page = happy \/ ctx_sentiment page = sad
   \/ ctx_sentiment page = neutral) /\
  ctx_top_image page <> Some [].
Proof.
  intros H. destruct (method req) eqn:Hm;
    try (unfold handle, index in H; rewrite Hm in H; discriminate H).
  split; [reflexivity|].
  destruct (rendered_inv w req page Hm H) as (a & _ & Ht & ->).
  unfold result_page. cbn [ctx_title ctx_summary ctx_sentiment ctx_top_image].
  repeat split.
  - unfold py_or. destruct (title a) as [s|]; [|discriminate].
    destruct (truthy s) eqn:E; [now apply truthy_true|discriminate].
  - apply summarize_nonempty. now apply truthy_true.
  - unfold sentiment_of.
    destruct (SFltb zero _); [now left|].
    destruct (SFltb _ zero); [right; now left|right; now right].
  - destruct (top_image a) as [s|]; [|discriminate].
    destruct s; [discriminate|]. cbn [truthy]. discriminate.
Qed.

Lemma rendered_page_is_filled_witness :
  let w := scripted true (inr html_response) anonymous_story (Some half) in
  let req := post "https://www.example.com/story" in
  ctx_title (result_page w (submitted req) anonymous_story) <> [].
Proof.
  intros w req.
  apply (rendered_page_is_filled w req
           (result_page w (submitted req) anonymous_story)).
  vm_compute. reflexivity.
Defined.

(** X9: the sentiment classifier is called only on the trimmed article text, only
    when that text is non-empty, and only for a request that ends in a result
    page whose summary is the summary of that same text. *)
Theorem classifier_sees_rendered_text (w : World) (req : request) (t : pystr) :
  In (TextBlobSentiment t) (snd (handle w req)) ->
  t <> [] /\ strip t = t /\
  exists page, fst (handle w req) = Served (RenderResult page)
               /\ ctx_summary page = summarize t.
Proof.
  destruct (method req) eqn:Hm;
    try (unfold handle, index; rewrite Hm; intros []).
  rewrite (handle_post_replay w req Hm).
  unfold post_replay, after.
  replay_cases; cbn [snd fst app In]; intros H;
    repeat (destruct H as [H|H]; [try discriminate H|]);
    try contradiction;
    injection H as <-;
    (split; [now apply truthy_true|]);
    (split; [apply strip_idem|]);
    eexists; split; reflexivity.
Qed.

Lemma classifier_sees_rendered_text_witness :
  let w := scripted true (inr html_response) anonymous_story (Some half) in
  exists page,
    fst (handle w (post "https://www.example.com/story"))
    = Served (RenderResult page)
    /\ ctx_summary page = summarize (py "Good news. More news.").
Proof.
  intros w.
  apply (classifier_sees_rendered_text w (post "https://www.example.com/story")
           (py "Good news. More news.")).
  vm_compute. tauto.
Defined.

(** ** Further properties: the summarizer *)

(** X10: splitting a summary again gives back exactly the fragments that were
    kept: the first five sentences of the text. *)
Theorem summary_resplits_to_kept (t : pystr) :
  sentences (summarize t) = firstn max_summarized_sentences (sentences t).
Proof.
  destruct (sentences t) as [|f fs] eqn:E.
  - rewrite (summarize_fallback t E).
    apply sentences_nil_iff, dotspace_fallback, sentences_nil_iff, E.
  - rewrite summarize_sentence_path by (rewrite E; discriminate).
    rewrite <- E. apply sentences_join, kept_clean.
Qed.

Lemma split_app (sep : char) (a b : pystr) :
  split sep (a ++ sep :: b) = split sep a ++ split sep b.
Proof.
  induction a as [|c a IH].
  - simpl. now rewrite N.eqb_refl.
  - change ((c :: a) ++ sep :: b) with (c :: (a ++ sep :: b)).
    simpl. destruct (c =? sep)%N; rewrite IH; [reflexivity|].
    pose proof (split_not_nil sep a) as Hne.
    destruct (split sep a) as [|f fs]; [congruence|reflexivity].
Qed.

Lemma sentences_app (a b : pystr) :
  sentences (a ++ period :: b) = sentences a ++ sentences b.
Proof. unfold sentences. now rewrite split_app, filter_app, map_app. Qed.

(** X11: once a text has five sentences, whatever follows after a further period
    does not reach the summary. *)
Theorem summary_ignores_tail (t extra : pystr) :
  max_summarized_sentences <= List.length (sentences t) ->
  summarize (t ++ period :: extra) = summarize t.
Proof.
  intros H.
  assert (Hne : sentences t <> []).
  { destruct (sentences t); [simpl in H; unfold max_summarized_sentences in H; lia
                            |discriminate]. }
  rewrite !summarize_sentence_path.
  - rewrite sentences_app, firstn_app.
    replace (max_summarized_sentences - List.length (sentences t)) with 0 by lia.
    now rewrite firstn_0, app_nil_r.
  - exact Hne.
  - rewrite sentences_app. destruct (sentences t); [congruence|discriminate].
Qed.

Lemma summary_ignores_tail_witness :
  summarize (py "A. B. C. D. E" ++ period :: py " F. G.")
  = summarize (py "A. B. C. D. E").
Proof.
  apply (summary_ignores_tail (py "A. B. C. D. E") (py " F. G.")).
  vm_compute. lia.
Defined.

Section SummaryLength.

(** Total number of characters in a list of fragments. *)
Let total (fs : list pystr) : nat := list_sum (map (@List.length char) fs).

Lemma lstrip_length (s : pystr) : List.length (lstrip s) <= List.length s.
Proof.
  induction s as [|c s IH]; simpl; [lia|].
  destruct (isspace c); simpl; lia.
Qed.

Lemma strip_length (s : pystr) : List.length (strip s) <= List.length s.
Proof.
  unfold strip, rstrip. rewrite length_rev.
  etransitivity; [apply lstrip_length|]. rewrite length_rev.
  apply lstrip_length.
Qed.

Lemma split_total (sep : char) (t : pystr) :
  total (split sep t) + List.length (split sep t) = S (List.length t).
Proof.
  unfold total. induction t as [|c t IH]; simpl; [reflexivity|].
  destruct (c =? sep)%N; simpl; [lia|].
  pose proof (split_not_nil sep t) as Hne.
  destruct (split sep t) as [|f fs]; [congruence|]. simpl in *. lia.
Qed.

Lemma sentences_total (t : pystr) :
  total (sentences t) + List.length (sentences t) <= S (List.length t).
Proof.
  rewrite <- (split_total period t). unfold sentences, total.
  induction (split period t) as [|f fs IH]; simpl; [lia|].
  destruct (truthy (strip f)); simpl; [|lia].
  pose proof (strip_length f). lia.
Qed.

Lemma firstn_total (n : nat) (fs : list pystr) :
  total (firstn n fs) + List.length (firstn n fs)
  <= total fs + List.length fs.
Proof.
  unfold total. revert n. induction fs as [|f fs IH]; intros [|n]; simpl;
    try lia.
  specialize (IH n). lia.
Qed.

Lemma join_length (sp : pystr) (fs : list pystr) :
  List.length (join sp fs) + List.length sp
  = total fs + List.length sp * List.length fs \/ fs = [].
Proof.
  unfold total. induction fs as [|f [|g fs] IH]; [now right| |]; left.
  - simpl. lia.
  - destruct IH as [IH|IH]; [|discriminate].
    rewrite join_cons2, !length_app.
    change (map (@List.length char) (f :: g :: fs))
      with (List.length f :: map (@List.length char) (g :: fs)).
    change (list_sum (List.length f :: ?l)) with (List.length f + list_sum l).
    change (List.length (f :: g :: fs)) with (S (List.length (g :: fs))).
    nia.
Qed.

Lemma sentence_path_length (t : pystr) :
  len (join (py ". ") (firstn max_summarized_sentences (sentences t)))
  <= len t + 4.
Proof.
  unfold len.
  pose proof (sentences_total t) as Ht.
  pose proof (firstn_total max_summarized_sentences (sentences t)) as Hf.
  pose proof (firstn_le_length max_summarized_sentences (sentences t)) as Hk.
  destruct (join_length (py ". ")
              (firstn max_summarized_sentences (sentences t))) as [Hj|Hj].
  - change (List.length (py ". ")) with 2 in Hj.
    unfold max_summarized_sentences in *. lia.
  - rewrite Hj. simpl. lia.
Qed.

End SummaryLength.

(** X12: a summary is never more than four characters longer than the text, and
    one taken from the 800-character fallback has at most 803 characters. *)
Theorem summary_length_bound (t : pystr) :
  len (summarize t) <= len t + 4 /\
  (sentences t = [] -> len (summarize t) <= 803).
Proof.
  assert (F : sentences t = [] ->
              len (summarize t) <= len t + 4 /\ len (summarize t) <= 803).
  { intros E. rewrite (summarize_fallback t E). unfold len.
    rewrite length_app, length_firstn.
    remember 800 as n eqn:En.
    destruct (n <? List.length t) eqn:L.
    - change (List.length (py "...")) with 3.
      apply Nat.ltb_lt in L. subst n. lia.
    - change (List.length (py "")) with 0.
      apply Nat.ltb_ge in L. subst n. lia. }
  split.
  - destruct (sentences t) as [|f fs] eqn:E; [now apply F|].
    rewrite summarize_sentence_path by (rewrite E; discriminate).
    apply sentence_path_length.
  - intros E. now apply F.
Qed.

Lemma summary_length_bound_witness :
  len (summarize (repeat period 2000)) <= 803.
Proof.
  apply (summary_length_bound (repeat period 2000)).
  apply sentences_nil_iff, Forall_forall.
  intros c Hc. left. exact (repeat_spec _ _ _ Hc).
Defined.

Section SummaryTrimmed.

(** [s] starts with a character that is not whitespace. *)
Let solid (s : pystr) : Prop :=
  exists c r, s = c :: r /\ isspace c = false.

Lemma solid_app (a b : pystr) : solid a -> solid (a ++ b).
Proof. intros (c & r & -> & H). now exists c, (r ++ b). Qed.

Lemma solid_ends_strip (s : pystr) :
  solid s -> solid (rev s) -> strip s = s.
Proof.
  intros (c & r & -> & Hc) (d & q & E & Hd).
  unfold strip, rstrip. rewrite (lstrip_nonspace _ _ Hc), E.
  rewrite (lstrip_nonspace _ _ Hd), <- E. apply rev_involutive.
Qed.

Lemma strip_solid_ends (s : pystr) :
  strip s = s -> s <> [] -> solid s /\ solid (rev s).
Proof.
  intros Hs Hne. split.
  - destruct (strip_head s) as [E|(c & r & E & Hc)]; [congruence|].
    exists c, r. split; congruence.
  - unfold strip, rstrip in Hs.
    apply (f_equal (@rev char)) in Hs. rewrite rev_involutive in Hs.
    destruct (lstrip_head (rev (lstrip s))) as [E|(c & r & E & Hc)].
    + rewrite E in Hs. destruct s; [congruence|].
      symmetry in Hs. apply app_eq_nil in Hs. destruct Hs as [_ Hs].
      discriminate.
    + exists c, r. split; congruence.
Qed.

Lemma join_ends (sp : pystr) (fs : list pystr) :
  fs <> [] -> exists pre, join sp fs = pre ++ last fs [].
Proof.
  induction fs as [|f [|g fs] IH]; intros Hne; [congruence| |].
  - exists []. reflexivity.
  - destruct IH as (pre & E); [discriminate|]. exists (f ++ sp ++ pre).
    rewrite join_cons2, E, <- !app_assoc. reflexivity.
Qed.

Lemma last_In (fs : list pystr) : fs <> [] -> In (last fs []) fs.
Proof.
  induction fs as [|f [|g fs] IH]; intros Hne; [congruence|now left|].
  right. apply IH. discriminate.
Qed.

Lemma join_solid (sp : pystr) (fs : list pystr) :
  fs <> [] -> Forall clean fs ->
  solid (join sp fs) /\ solid (rev (join sp fs)).
Proof.
  intros Hne Hc. split.
  - destruct fs as [|f fs]; [congruence|].
    inversion Hc as [|? ? (Hf & Hs & _) _]; subst.
    destruct (strip_solid_ends f Hs Hf) as [S _].
    destruct fs; [exact S|]. rewrite join_cons2. now apply solid_app.
  - destruct (join_ends sp fs Hne) as (pre & ->).
    rewrite rev_app_distr. apply solid_app.
    destruct (proj1 (Forall_forall _ _) Hc _ (last_In fs Hne)) as (Hf & Hs & _).
    exact (proj2 (strip_solid_ends _ Hs Hf)).
Qed.

Lemma summarize_trimmed_text (t : pystr) :
  strip t = t -> strip (summarize t) = summarize t.
Proof.
  intros Hs. destruct t as [|c t]; [reflexivity|].
  destruct (strip_solid_ends (c :: t) Hs) as [S1 S2]; [discriminate|].
  destruct (sentences (c :: t)) as [|f fs] eqn:E.
  - rewrite (summarize_fallback _ E). unfold len.
    remember 800 as n eqn:En.
    destruct (n <? List.length (c :: t)) eqn:L.
    + apply solid_ends_strip.
      * apply solid_app. destruct S1 as (d & r & Hd & Hsp).
        injection Hd as <- <-. subst n. exists c, (firstn 799 t).
        split; [reflexivity|exact Hsp].
      * rewrite rev_app_distr. apply solid_app.
        exists period, [period; period]. split; reflexivity.
    + apply Nat.ltb_ge in L. rewrite (firstn_all2 _ L).
      change (py "") with (@nil char). now rewrite app_nil_r.
  - rewrite summarize_sentence_path by (rewrite E; discriminate).
    destruct (join_solid (py ". ")
                (firstn max_summarized_sentences (sentences (c :: t))))
      as [J1 J2].
    + rewrite E. discriminate.
    + apply kept_clean.
    + now apply solid_ends_strip.
Qed.

End SummaryTrimmed.

(** X13: the summary of the article text, which the handler trims first, has no
    leading or trailing whitespace itself. *)
Theorem summary_is_trimmed (raw : pystr) :
  strip (summarize (strip raw)) = summarize (strip raw).
Proof. apply summarize_trimmed_text, strip_idem. Qed.

(** ** The probe *)

(** C7, as the code has it: after a valid URL, a probe response whose status
    is outside 400-599, so that [raise_for_status] does not raise, but whose
    Content-Type lacks "text/html" is answered by the not-an-article
    message, the GET being the only call made (no extraction); a
    [RequestException] of any kind from the GET (connection error, timeout,
    ...) and every 4xx or 5xx status end in one and the same fetch-failure
    reply; a response with any other status, 3xx included, and an HTML
    Content-Type passes the probe, and the article download is attempted. *)
Theorem probe_rejects (w : World) (req : request) :
  method req = POST ->
  validators_url w (submitted req) = true ->
  let u := submitted req in
  let fetch_failure :=
    (Served (Redirect (py "index")),
     [HttpGet u user_agent 10; LogWarning (py "requests failed for %s : %s");
      Flash msg_fetch_failed]) in
  (forall resp,
      requests_get w u user_agent 10 = inr resp ->
      ~ (400 <= status_code resp < 600)%Z ->
      contains (header_or resp (py "Content-Type") (py "")) (py "text/html")
        = false ->
      handle w req
      = (Served (Redirect (py "index")),
         [HttpGet u user_agent 10; Flash msg_not_html])
      /\ forall e, In e (snd (handle w req)) -> is_extraction e = false) /\
  (forall e, requests_get w u user_agent 10 = inl e ->
             handle w req = fetch_failure) /\
  (forall resp,
      requests_get w u user_agent 10 = inr resp ->
      (400 <= status_code resp < 600)%Z ->
      handle w req = fetch_failure) /\
  (forall resp,
      requests_get w u user_agent 10 = inr resp ->
      ~ (400 <= status_code resp < 600)%Z ->
      contains (header_or resp (py "Content-Type") (py "")) (py "text/html")
        = true ->
      probe_ok w u = true /\ In ArticleDownload (snd (handle w req))).
Proof.
  intros Hm Hv u fetch_failure.
  assert (R : forall resp,
             raises_for_status resp = true <-> (400 <= status_code resp < 600)%Z).
  { intros resp. unfold raises_for_status.
    rewrite andb_true_iff, Z.leb_le, Z.ltb_lt. reflexivity. }
  assert (N : forall resp, ~ (400 <= status_code resp < 600)%Z ->
                           raises_for_status resp = false).
  { intros resp H. destruct (raises_for_status resp) eqn:E; [|reflexivity].
    apply R in E. contradiction. }
  split; [|split; [|split]].
  - intros resp Hg Hs Hc.
    rewrite (handle_not_html w req Hm resp Hv Hg (N resp Hs) Hc).
    split; [reflexivity|]. intros e [<-|[<-|[]]]; reflexivity.
  - intros e Hg. exact (handle_probe_error w req Hm e Hv Hg).
  - intros resp Hg Hs.
    apply (handle_probe_status w req Hm resp Hv Hg). now apply R.
  - intros resp Hg Hs Hc. subst u. split.
    + unfold probe_ok. now rewrite Hg, (N resp Hs), Hc.
    + rewrite (handle_post_replay w req Hm). unfold post_replay.
      rewrite Hv, Hg, (N resp Hs), Hc.
      replay_cases; cbn [snd app In]; auto 10.
Qed.

Lemma probe_rejects_witness :
  let req := post "https://www.example.com/paper.pdf" in
  handle (scripted true (inr pdf_response) anonymous_story (Some half)) req
  = (Served (Redirect (py "index")),
     [HttpGet (submitted req) user_agent 10; Flash msg_not_html])
  /\ fst (handle (scripted true (inl Timeout) anonymous_story (Some half)) req)
     = Served (Redirect (py "index"))
  /\ fst (handle (scripted true (inr not_found_response) anonymous_story
                    (Some half)) req)
     = Served (Redirect (py "index"))
  /\ In ArticleDownload
       (snd (handle (scripted true (inr not_modified_response) anonymous_story
                       (Some half)) req)).
Proof.
  intros req. split; [|split; [|split]].
  - apply (proj1 (probe_rejects
                    (scripted true (inr pdf_response) anonymous_story (Some half))
                    req eq_refl eq_refl) pdf_response);
      [reflexivity|simpl; lia|vm_compute; reflexivity].
  - rewrite (proj1 (proj2 (probe_rejects
                    (scripted true (inl Timeout) anonymous_story (Some half))
                    req eq_refl eq_refl)) Timeout eq_refl).
    reflexivity.
  - rewrite (proj1 (proj2 (proj2 (probe_rejects
                    (scripted true (inr not_found_response) anonymous_story
                       (Some half))
                    req eq_refl eq_refl))) not_found_response eq_refl).
    + reflexivity.
    + simpl. lia.
  - apply (proj2 (proj2 (proj2 (probe_rejects
                    (scripted true (inr not_modified_response) anonymous_story
                       (Some half))
                    req eq_refl eq_refl))) not_modified_response);
      [reflexivity|simpl; lia|vm_compute; reflexivity].
Defined.

(** C7 as stated fails: 304 is not a success status, yet a 304 response with
    an HTML Content-Type is not treated as a fetch failure: [raise_for_status]
    raises for 4xx and 5xx only, the probe passes and the result page is
    rendered. *)
Lemma not_modified_counterexample :
  let w := scripted true (inr not_modified_response) anonymous_story
             (Some half) in
  let req := post "https://www.example.com/story" in
  status_is_success not_modified_response = false
  /\ requests_get w (submitted req) user_agent 10 = inr not_modified_response
  /\ flashes (snd (handle w req)) = []
  /\ exists page, fst (handle w req) = Served (RenderResult page).
Proof.
  intros w req. split; [reflexivity|]. split; [reflexivity|].
  split; [vm_compute; reflexivity|].
  eexists. vm_compute. reflexivity.
Qed.
